(** * Camster webcam surveillance: the face-matching pipeline

    A shallow embedding of [camera/facial_recognition.py] (class
    [FacialRecognition]): detection, alignment, feature extraction,
    gallery loading, nearest-neighbour matching and sighting recording.

    Python floats are IEEE binary64 values, embedded as Rocq's primitive
    floats; Python ints are [Z]; [None] is [option]'s [None]; exceptions
    and side effects (print, file system, the Face table, the clock) are
    threaded through a state-and-exception monad.  The third-party
    libraries (OpenCV, dlib, MTCNN, Keras, NumPy, SciPy) are collaborators
    whose results the code only passes around: they are fields of a type
    class, every theorem holds for all of its instances. *)

From Stdlib Require Import ZArith List String Ascii Bool Lia.
From Stdlib Require Import Floats.
Import ListNotations.

Local Open Scope string_scope.
Local Open Scope list_scope.
Local Open Scope Z_scope.

(** ** Python floats and their comparisons *)

Module PyFloat.

(** [a < b], [a <= b], [a > b], [a >= b] on Python floats: the IEEE 754
    comparisons, all false as soon as one side is a NaN. *)
Definition lt (a b : float) : bool := PrimFloat.ltb a b.
Definition le (a b : float) : bool := PrimFloat.leb a b.
Definition gt (a b : float) : bool := PrimFloat.ltb b a.
Definition ge (a b : float) : bool := PrimFloat.leb b a.

(** [float('inf')] *)
Definition inf : float := PrimFloat.infinity.

End PyFloat.

(** ** Python strings and paths *)

Module PyStr.

(** [s.endswith(suffix)] *)
Definition endswith (s suffix : string) : bool :=
  let n := String.length s in
  let m := String.length suffix in
  (m <=? n)%nat && String.eqb (substring (n - m) m s) suffix.

(** [s.startswith(p)] *)
Definition startswith (s p : string) : bool := String.prefix p s.

(** [s.rfind(c)] for a one-character [c], counting from [i]: the highest
    index holding [c], or [-1]. *)
Fixpoint rfind_from (c : ascii) (s : string) (i : Z) : Z :=
  match s with
  | EmptyString => -1
  | String a s' =>
      let r := rfind_from c s' (i + 1) in
      if 0 <=? r then r else if Ascii.eqb a c then i else -1
  end.

Definition rfind (c : ascii) (s : string) : Z := rfind_from c s 0.

(** [p[:i]] and [p[i:]] for [0 <= i]. *)
Definition upto (i : nat) (p : string) : string := substring 0 i p.
Definition from (i : nat) (p : string) : string :=
  substring i (String.length p - i) p.

(** The loop of [genericpath._splitext] that skips the leading dots of
    the file name: [true] when one of the [n] characters from
    [filenameIndex] on is not a dot. *)
Fixpoint has_non_dot (p : string) (filenameIndex n : nat) : bool :=
  match n with
  | O => false
  | S n' =>
      match String.get filenameIndex p with
      | Some c =>
          if Ascii.eqb c "." then has_non_dot p (S filenameIndex) n'
          else true
      | None => true
      end
  end.

(** [os.path.splitext(p)] (posixpath: separator [/], extension
    separator [.]). *)
Definition splitext (p : string) : string * string :=
  let sepIndex := rfind "/" p in
  let dotIndex := rfind "." p in
  if (sepIndex <? dotIndex)
     && has_non_dot p (Z.to_nat (sepIndex + 1))
                      (Z.to_nat (dotIndex - (sepIndex + 1)))
  then (upto (Z.to_nat dotIndex) p, from (Z.to_nat dotIndex) p)
  else (p, "").

(** [os.path.join(a, b)] (posixpath). *)
Definition join (a b : string) : string :=
  if startswith b "/" then b
  else if String.eqb a "" || endswith a "/" then (a ++ b)%string
  else (a ++ "/" ++ b)%string.

End PyStr.

(** ** Arrays, faces and the collaborators *)

(** A NumPy image: [shape = (shape0, shape1, shape2)], rows by columns by
    channels, and the value at each index. *)
Record ndarray : Type := mk_ndarray {
  shape0 : nat;
  shape1 : nat;
  shape2 : nat;
  item : nat -> nat -> nat -> Z
}.

(** [img.size] *)
Definition size (img : ndarray) : Z :=
  Z.of_nat (shape0 img * shape1 img * shape2 img).

(** The bounds of the slice [a:b] of an axis of length [n]: where it
    starts and how many indices it holds (Python's rule: a negative bound
    counts from the end, and both are clipped to the axis). *)
Definition slice_bound (n : nat) (i : Z) : Z :=
  if i <? 0 then Z.max (i + Z.of_nat n) 0 else Z.min i (Z.of_nat n).

Definition slice (n : nat) (a b : Z) : nat * nat :=
  let start := slice_bound n a in
  let stop := slice_bound n b in
  (Z.to_nat start, Z.to_nat (stop - start)).

(** [img[r0:r1, c0:c1]] *)
Definition crop (img : ndarray) (r0 r1 c0 c1 : Z) : ndarray :=
  let '(rs, rn) := slice (shape0 img) r0 r1 in
  let '(cs, cn) := slice (shape1 img) c0 c1 in
  {| shape0 := rn; shape1 := cn; shape2 := shape2 img;
     item := fun i j k => item img (rs + i) (cs + j) k |}.

(** A box [[x, y, width, height]]. *)
Definition box_t : Type := Z * Z * Z * Z.

(** One entry of MTCNN's [detect_faces]: a dict with keys [box],
    [confidence] and [keypoints]; [recognize_faces] adds the key [label]. *)
Record face_dict : Type := mk_face {
  box : box_t;
  confidence : float;
  keypoints : list (string * (Z * Z));
  label : option string
}.

Definition set_box (f : face_dict) (b : box_t) : face_dict :=
  {| box := b; confidence := confidence f;
     keypoints := keypoints f; label := label f |}.

Definition set_label (f : face_dict) (l : string) : face_dict :=
  {| box := box f; confidence := confidence f;
     keypoints := keypoints f; label := Some l |}.

Inductive ColorConversionCode : Type := COLOR_BGR2GRAY | COLOR_GRAY2BGR.

(** [django.conf.settings], the three entries the class reads. *)
Record Settings : Type := {
  MODEL_DIR : string;
  KNOWN_FACES_DIR : string;
  MEDIA_ROOT : string
}.

(** What the libraries compute.  [cv2_resize] and [cv2_imread] fail the
    way the code provides for: [cv2.resize] by raising [cv2.error]
    ([None] here), [cv2.imread] by returning [None].  [os_listdir] gives
    the names in a directory that exists; whether it exists is read off
    the world, see [listdir]. *)
Class Libs : Type := {
  tensor : Type;                     (* float arrays fed to the network *)
  affine : Type;                     (* 2x3 matrices *)
  cv2_resize : ndarray -> nat * nat -> option ndarray;
    (* cv2.resize(img, (width, height)) *)
  cv2_cvtColor : ndarray -> ColorConversionCode -> ndarray;
  cv2_imread : string -> option ndarray;
  cv2_getAffineTransform : list (Z * Z) -> list (Z * Z) -> affine;
  cv2_warpAffine : ndarray -> affine -> nat * nat -> ndarray;
  np_array_float32 : ndarray -> tensor;      (* np.array(img, dtype='float32') *)
  np_expand_dims : tensor -> nat -> tensor;
  preprocess_input : tensor -> tensor;
  flatten : tensor -> list float;            (* features.flatten() *)
  distance_euclidean : list float -> list float -> float;
  os_listdir : string -> list string;
  strftime_now : nat -> string;
    (* what the n-th call of datetime.now() gives, as '%Y%m%d_%H%M%S' *)
  settings : Settings
}.

(** ** Effects: printed lines, files, the Face table, exceptions *)

Inductive exn : Type :=
| cv2_error | IndexError | TypeError | FileNotFoundError.

Inductive outcome (A : Type) : Type :=
| Returned (a : A)
| Raised (e : exn).

Arguments Returned {A} a.
Arguments Raised {A} e.

(** The lines the class prints (their variable parts kept as data). *)
Inductive line : Type :=
| EmptyImageLine
    (* "Error: The image provided for face detection is empty or None." *)
| ResizeErrorLine                        (* "Error resizing image: {e}" *)
| NoShapePredictorLine               (* "Shape predictor is not loaded." *)
| ExtractFailedLine (label : string)
    (* "Failed to extract features for known face: {label}" *)
| DistanceLine (known_label : string) (dist : float)
    (* "Distance to known face {known_label}: {dist}" *)
| FaceImageSavedLine (filepath : string)
    (* "Face image saved: {filepath}" *)
| FaceRecordSavedLine (label filename : string).
    (* "Face record saved: {label}, {filename}" *)

(** What the code can change or read outside its own variables. *)
Record world : Type := mk_world {
  stdout : list line;                      (* print, oldest first *)
  paths : list string;                     (* the paths that exist *)
  imwrites : list (string * ndarray);      (* cv2.imwrite(path, img) *)
  face_objects : list (string * string);   (* Face.objects.create(name, image) *)
  clock : nat                              (* datetime.now() calls so far *)
}.

Definition M (A : Type) : Type := world -> outcome A * world.

Definition ret {A : Type} (a : A) : M A := fun w => (Returned a, w).

Definition raise {A : Type} (e : exn) : M A := fun w => (Raised e, w).

Definition bind {A B : Type} (m : M A) (k : A -> M B) : M B :=
  fun w =>
    match m w with
    | (Returned a, w') => k a w'
    | (Raised e, w') => (Raised e, w')
    end.

Notation "x <- m ;; k" := (bind m (fun x => k))
  (at level 61, m at next level, right associativity).
Notation "m ;; k" := (bind m (fun _ => k))
  (at level 61, right associativity).

(** [try: body / except <catches>: handler] *)
Definition try_except {A : Type} (body : M A) (catches : exn -> bool)
    (handler : M A) : M A :=
  fun w =>
    match body w with
    | (Raised e, w') => if catches e then handler w' else (Raised e, w')
    | r => r
    end.

Definition is_cv2_error (e : exn) : bool :=
  match e with cv2_error => true | _ => false end.

Definition print (l : line) : M unit :=
  fun w =>
    (Returned tt,
     {| stdout := stdout w ++ [l]; paths := paths w;
        imwrites := imwrites w; face_objects := face_objects w;
        clock := clock w |}).

(** [os.path.exists(d)] and [os.makedirs(d)] *)
Definition os_path_exists (d : string) : M bool :=
  fun w => (Returned (existsb (String.eqb d) (paths w)), w).

Definition os_makedirs (d : string) : M unit :=
  fun w =>
    (Returned tt,
     {| stdout := stdout w; paths := d :: paths w;
        imwrites := imwrites w; face_objects := face_objects w;
        clock := clock w |}).

(** [cv2.imwrite(filepath, img)] for an image that is not empty (on an
    empty one the library raises [cv2.error]). *)
Definition cv2_imwrite (filepath : string) (img : ndarray) : M unit :=
  fun w =>
    (Returned tt,
     {| stdout := stdout w; paths := paths w;
        imwrites := imwrites w ++ [(filepath, img)];
        face_objects := face_objects w; clock := clock w |}).

Definition Face_objects_create (name image : string) : M unit :=
  fun w =>
    (Returned tt,
     {| stdout := stdout w; paths := paths w;
        imwrites := imwrites w;
        face_objects := face_objects w ++ [(name, image)];
        clock := clock w |}).

(** [list[i]] for [0 <= i] *)
Definition index {A : Type} (l : list A) (i : nat) : M A :=
  match nth_error l i with
  | Some a => ret a
  | None => raise IndexError
  end.

Section FacialRecognition.

Context {L : Libs}.

(** [datetime.now().strftime('%Y%m%d_%H%M%S')] *)
Definition datetime_now_strftime : M string :=
  fun w =>
    (Returned (strftime_now (clock w)),
     {| stdout := stdout w; paths := paths w;
        imwrites := imwrites w; face_objects := face_objects w;
        clock := S (clock w) |}).

(** [cv2.resize(img, dsize)] *)
Definition resize (img : ndarray) (dsize : nat * nat) : M ndarray :=
  match cv2_resize img dsize with
  | Some r => ret r
  | None => raise cv2_error
  end.

(** ** The class *)

(** The attributes of a [FacialRecognition] object ([base_model] is only
    used to build [model]). *)
Record FacialRecognition : Type := mk_FacialRecognition {
  detector : ndarray -> list face_dict;                 (* MTCNN.detect_faces *)
  model : tensor -> tensor;                        (* Model.predict *)
  known_faces_features : list (list float);
  known_faces_labels : list string;
  shape_predictor : option (ndarray -> Z * Z * Z * Z -> list (Z * Z))
    (* dlib's predictor on a [dlib.rectangle(left, top, right, bottom)],
       its parts as [(p.x, p.y)]; [None] when the model file is absent *)
}.

Definition _preprocess_image (img : option ndarray) : M (option tensor) :=
  match img with
  | None => ret None
  | Some a =>
      if size a =? 0 then ret None
      else
        img <- resize a (224%nat, 224%nat) ;;
        let img_array := np_array_float32 img in
        let img_array := np_expand_dims img_array 0 in
        let img_array := preprocess_input img_array in
        ret (Some img_array)
  end.

Definition _extract_features (self : FacialRecognition)
    (img_array : option tensor) : option (list float) :=
  match img_array with
  | None => None
  | Some a =>
      let features := model self a in
      Some (flatten features)
  end.

(** The default of [confidence_threshold], [0.70]: the binary64 value
    nearest to it. *)
Definition default_confidence_threshold : float :=
  0x1.6666666666666p-1%float.

(** MTCNN's boxes are lists of ints, on which [int(coordinate * 2)] is
    the product. *)
Definition _detect_faces (self : FacialRecognition) (img : option ndarray)
    (confidence_threshold : float) : M (list face_dict) :=
  match img with
  | None => print EmptyImageLine ;; ret []
  | Some a =>
      if size a =? 0 then print EmptyImageLine ;; ret []
      else
        r <- try_except
               (small_img <- resize a (160%nat, 120%nat) ;; ret (Some small_img))
               is_cv2_error
               (print ResizeErrorLine ;; ret None) ;;
        match r with
        | None => ret []
        | Some small_img =>
            let faces := detector self small_img in
            let faces :=
              map (fun face =>
                     let '(x, y, w, h) := box face in
                     set_box face (x * 2, y * 2, w * 2, h * 2)) faces in
            let filtered_faces :=
              filter (fun face =>
                        PyFloat.ge (confidence face) confidence_threshold)
                     faces in
            ret filtered_faces
        end
  end.

Definition _warp_affine (img : ndarray) (points : list (Z * Z)) : M ndarray :=
  p36 <- index points 36 ;;
  p45 <- index points 45 ;;
  p30 <- index points 30 ;;
  let src_points := [p36; p45; p30] in
  let dst_points := [(30, 30); (70, 30); (50, 70)] in
  let M := cv2_getAffineTransform src_points dst_points in
  let warped := cv2_warpAffine img M (100%nat, 100%nat) in
  ret warped.

(** [img] is whatever the caller holds, [None] included; the predictor
    itself needs an array. *)
Definition _align_face (self : FacialRecognition) (img : option ndarray)
    (box : box_t) : M (option ndarray) :=
  let '(x, y, w, h) := box in
  let dlib_rect := (x, y, x + w, y + h) in
  match shape_predictor self with
  | Some predictor =>
      match img with
      | Some a =>
          let points := predictor a dlib_rect in
          aligned_face <- _warp_affine a points ;;
          ret (Some aligned_face)
      | None => raise TypeError
      end
  | None => print NoShapePredictorLine ;; ret img
  end.

Definition _preprocess_and_extract (self : FacialRecognition)
    (img : option ndarray) : M (option (list float)) :=
  faces <- _detect_faces self img default_confidence_threshold ;;
  match faces with
  | face0 :: _ =>
      let '(x, y, width, height) := box face0 in
      aligned_face <- _align_face self img (x, y, width, height) ;;
      face_array <- _preprocess_image aligned_face ;;
      match face_array with
      | None => ret None
      | Some _ =>
          let features := _extract_features self face_array in
          ret features
      end
  | [] => ret None
  end.

(** [known_faces_features.append(f); known_faces_labels.append(l)] *)
Definition append_known (self : FacialRecognition) (f : list float)
    (l : string) : FacialRecognition :=
  {| detector := detector self; model := model self;
     known_faces_features := known_faces_features self ++ [f];
     known_faces_labels := known_faces_labels self ++ [l];
     shape_predictor := shape_predictor self |}.

Definition is_image_name (filename : string) : bool :=
  PyStr.endswith filename ".jpg" || PyStr.endswith filename ".jpeg"
  || PyStr.endswith filename ".png".

(** The body of the loop of [load_known_faces], for one file name. *)
Definition load_known_face (known_faces_dir : string)
    (self : FacialRecognition) (filename : string) : M FacialRecognition :=
  if is_image_name filename then
    let img_path := PyStr.join known_faces_dir filename in
    let label := fst (PyStr.splitext filename) in
    let img := cv2_imread img_path in
    face_features <- _preprocess_and_extract self img ;;
    match face_features with
    | Some f => ret (append_known self f label)
    | None => print (ExtractFailedLine label) ;; ret self
    end
  else ret self.

Fixpoint load_known_faces_loop (known_faces_dir : string)
    (self : FacialRecognition) (filenames : list string)
    : M FacialRecognition :=
  match filenames with
  | [] => ret self
  | filename :: rest =>
      self <- load_known_face known_faces_dir self filename ;;
      load_known_faces_loop known_faces_dir self rest
  end.

(** [os.listdir(d)]: the names in [d], and [FileNotFoundError] when [d]
    does not exist. *)
Definition listdir (d : string) : M (list string) :=
  fun w =>
    if existsb (String.eqb d) (paths w)
    then (Returned (os_listdir d), w)
    else (Raised FileNotFoundError, w).

Definition load_known_faces (self : FacialRecognition) : M FacialRecognition :=
  let known_faces_dir := KNOWN_FACES_DIR settings in
  filenames <- listdir known_faces_dir ;;
  load_known_faces_loop known_faces_dir self filenames.

(** [__init__], given what [MTCNN()], [_build_feature_extractor] on
    ResNet50, and [dlib.shape_predictor] on a model file provide; it
    returns the object it has set up. *)
Definition __init__ (MTCNN_detect_faces : ndarray -> list face_dict)
    (feature_extractor : tensor -> tensor)
    (dlib_shape_predictor :
       string -> ndarray -> Z * Z * Z * Z -> list (Z * Z))
    : M FacialRecognition :=
  let shape_predictor_path :=
    PyStr.join (MODEL_DIR settings) "shape_predictor_68_face_landmarks.dat" in
  there <- os_path_exists shape_predictor_path ;;
  let self :=
    {| detector := MTCNN_detect_faces; model := feature_extractor;
       known_faces_features := []; known_faces_labels := [];
       shape_predictor :=
         if there then Some (dlib_shape_predictor shape_predictor_path)
         else None |} in
  load_known_faces self.

Definition save_face_image (face_img : ndarray) (label : string) : M unit :=
  let faces_seen_dir := PyStr.join (MEDIA_ROOT settings) "faces_seen" in
  there <- os_path_exists faces_seen_dir ;;
  (if negb there then os_makedirs faces_seen_dir else ret tt) ;;
  timestamp <- datetime_now_strftime ;;
  let filename := (label ++ "_" ++ timestamp ++ ".jpg")%string in
  let filepath := PyStr.join faces_seen_dir filename in
  cv2_imwrite filepath face_img ;;
  print (FaceImageSavedLine filepath) ;;
  Face_objects_create label ("faces_seen/" ++ filename)%string ;;
  print (FaceRecordSavedLine label filename).

(** The default of [recognition_threshold]. *)
Definition default_recognition_threshold : float := 7%float.

(** Lines 228-233: the scan of the gallery, from the current
    [min_distance] and [label]. *)
Fixpoint nearest_scan (features : list float)
    (gallery : list (list float * string))
    (min_distance : float) (label : string) : M (float * string) :=
  match gallery with
  | [] => ret (min_distance, label)
  | (known_features, known_label) :: rest =>
      let dist := distance_euclidean features known_features in
      print (DistanceLine known_label dist) ;;
      if PyFloat.lt dist min_distance
      then nearest_scan features rest dist known_label
      else nearest_scan features rest min_distance label
  end.

(** Lines 226-235: the label of one embedding. *)
Definition assign_label (self : FacialRecognition) (features : list float)
    (recognition_threshold : float) : M string :=
  let min_distance := PyFloat.inf in
  let label := "Unknown" in
  r <- nearest_scan features
         (combine (known_faces_features self) (known_faces_labels self))
         min_distance label ;;
  let '(min_distance, label) := r in
  let label :=
    if PyFloat.gt min_distance recognition_threshold then "Unknown"
    else label in
  ret label.

(** The test of line 219. *)
Definition out_of_frame (frame : ndarray) (b : box_t) : bool :=
  let '(x, y, width, height) := b in
  (x <? 0) || (y <? 0) || (Z.of_nat (shape1 frame) <? x + width)
  || (Z.of_nat (shape0 frame) <? y + height).

(** The body of the loop of [recognize_faces], for one detected face:
    from the list [recognized_faces] so far to the list after this face
    ([continue] leaves it as it is).  [_extract_features] returns [None]
    only on [None], which [face_array] is not where it is called. *)
Definition recognize_face (self : FacialRecognition) (frame : ndarray)
    (recognition_threshold : float) (recognized_faces : list face_dict)
    (face : face_dict) : M (list face_dict) :=
  let '(x, y, width, height) := box face in
  if out_of_frame frame (x, y, width, height) then ret recognized_faces
  else
    aligned_face <- _align_face self (Some frame) (x, y, width, height) ;;
    face_array <- _preprocess_image aligned_face ;;
    match face_array with
    | None => ret recognized_faces
    | Some _ =>
        match _extract_features self face_array with
        | None => raise TypeError
        | Some features =>
            label <- assign_label self features recognition_threshold ;;
            let face := set_label face label in
            let recognized_faces := recognized_faces ++ [face] in
            save_face_image (crop frame y (y + height) x (x + width)) label ;;
            ret recognized_faces
        end
    end.

Fixpoint recognize_faces_loop (self : FacialRecognition) (frame : ndarray)
    (recognition_threshold : float) (faces recognized_faces : list face_dict)
    : M (list face_dict) :=
  match faces with
  | [] => ret recognized_faces
  | face :: rest =>
      recognized_faces <-
        recognize_face self frame recognition_threshold recognized_faces face ;;
      recognize_faces_loop self frame recognition_threshold rest
        recognized_faces
  end.

Definition recognize_faces (self : FacialRecognition) (frame : ndarray)
    (recognition_threshold : float) : M (list face_dict) :=
  let gray_image := cv2_cvtColor frame COLOR_BGR2GRAY in
  let gray_image_3ch := cv2_cvtColor gray_image COLOR_GRAY2BGR in
  faces <- _detect_faces self (Some gray_image_3ch)
             default_confidence_threshold ;;
  recognize_faces_loop self frame recognition_threshold faces [].

End FacialRecognition.

(** ** What the methods compute, apart from what they print

    Of the methods below only [save_face_image] changes the world beyond
    [stdout], and only [__init__] and [load_known_faces] read it, for the
    landmark model file and the gallery directory; the others return a
    value that depends on their arguments alone.  These are those values;
    the theorems below show that the methods return them. *)

(** [w] after [ls] more lines were printed. *)
Definition say (ls : list line) (w : world) : world :=
  {| stdout := stdout w ++ ls; paths := paths w;
     imwrites := imwrites w; face_objects := face_objects w;
     clock := clock w |}.

(** [m] returns or raises [v] in whatever world it runs, and only prints. *)
Definition computes {A : Type} (m : M A) (v : outcome A) : Prop :=
  forall w, exists ls, m w = (v, say ls w).

Section Values.

Context {L : Libs}.

(** Line 121: every coordinate of the box times two. *)
Definition rescaled (face : face_dict) : face_dict :=
  let '(x, y, w, h) := box face in
  set_box face (x * 2, y * 2, w * 2, h * 2).

(** Following the spec's words (section 4.1, "rescale each box's
    coordinates back to original-resolution space by the same downsampling
    factor"): the box scaled by the factors by which [img] was shrunk to
    the working resolution, 160 columns by 120 rows. *)
Definition rescaled_by_downsampling_factor (img : ndarray)
    (face : face_dict) : face_dict :=
  let '(x, y, w, h) := box face in
  set_box face
    (x * Z.of_nat (shape1 img) / 160, y * Z.of_nat (shape0 img) / 120,
     w * Z.of_nat (shape1 img) / 160, h * Z.of_nat (shape0 img) / 120).

(** The list [_detect_faces] returns. *)
Definition detections (self : FacialRecognition) (img : option ndarray)
    (confidence_threshold : float) : list face_dict :=
  match img with
  | None => []
  | Some a =>
      if size a =? 0 then []
      else
        match cv2_resize a (160%nat, 120%nat) with
        | None => []
        | Some small_img =>
            filter (fun face =>
                      PyFloat.ge (confidence face) confidence_threshold)
                   (map rescaled (detector self small_img))
        end
  end.

(** The outcome of [_align_face]. *)
Definition aligned (self : FacialRecognition) (img : option ndarray)
    (b : box_t) : outcome (option ndarray) :=
  let '(x, y, w, h) := b in
  match shape_predictor self with
  | None => Returned img
  | Some predictor =>
      match img with
      | None => Raised TypeError
      | Some a =>
          let points := predictor a (x, y, x + w, y + h) in
          match nth_error points 36, nth_error points 45,
                nth_error points 30 with
          | Some p36, Some p45, Some p30 =>
              Returned
                (Some (cv2_warpAffine a
                         (cv2_getAffineTransform [p36; p45; p30]
                            [(30, 30); (70, 30); (50, 70)])
                         (100%nat, 100%nat)))
          | _, _, _ => Raised IndexError
          end
      end
  end.

(** The outcome of [_preprocess_image]. *)
Definition preprocessed (img : option ndarray) : outcome (option tensor) :=
  match img with
  | None => Returned None
  | Some a =>
      if size a =? 0 then Returned None
      else
        match cv2_resize a (224%nat, 224%nat) with
        | None => Raised cv2_error
        | Some r =>
            Returned
              (Some (preprocess_input (np_expand_dims (np_array_float32 r) 0)))
        end
  end.

(** The outcome of the chain [_align_face], [_preprocess_image],
    [_extract_features] on one box of [img]. *)
Definition embedding (self : FacialRecognition) (img : option ndarray)
    (b : box_t) : outcome (option (list float)) :=
  match aligned self img b with
  | Raised e => Raised e
  | Returned aligned_face =>
      match preprocessed aligned_face with
      | Raised e => Raised e
      | Returned None => Returned None
      | Returned (Some a) => Returned (_extract_features self (Some a))
      end
  end.

(** The outcome of [_preprocess_and_extract]. *)
Definition first_face_features (self : FacialRecognition)
    (img : option ndarray) : outcome (option (list float)) :=
  match detections self img default_confidence_threshold with
  | [] => Returned None
  | face0 :: _ => embedding self img (box face0)
  end.

(** The entries [load_known_faces] appends for the files [filenames] of
    the directory, when no file raises: one for each image name whose
    first face yields features, in the order of the listing. *)
Fixpoint loaded_entries (known_faces_dir : string)
    (self : FacialRecognition) (filenames : list string)
    : list (list float * string) :=
  match filenames with
  | [] => []
  | filename :: rest =>
      let more := loaded_entries known_faces_dir self rest in
      if is_image_name filename then
        match first_face_features self
                (cv2_imread (PyStr.join known_faces_dir filename)) with
        | Returned (Some f) => (f, fst (PyStr.splitext filename)) :: more
        | _ => more
        end
      else more
  end.

(** The pair [(min_distance, label)] after the scan of lines 228-233. *)
Fixpoint nearest (features : list float)
    (gallery : list (list float * string))
    (min_distance : float) (label : string) : float * string :=
  match gallery with
  | [] => (min_distance, label)
  | (known_features, known_label) :: rest =>
      let dist := distance_euclidean features known_features in
      if PyFloat.lt dist min_distance
      then nearest features rest dist known_label
      else nearest features rest min_distance label
  end.

(** [zip(self.known_faces_features, self.known_faces_labels)] *)
Definition gallery (self : FacialRecognition) : list (list float * string) :=
  combine (known_faces_features self) (known_faces_labels self).

(** Entry [i] of the gallery [g], [(known_features, known_label)], is the
    nearest to [features]: it lies at a distance below [+inf], no entry
    of [g] is closer, and no entry before it lies at the same distance. *)
Definition first_nearest (features : list float)
    (g : list (list float * string)) (i : nat)
    (known_features : list float) (known_label : string) : Prop :=
  nth_error g i = Some (known_features, known_label)
  /\ PyFloat.lt (distance_euclidean features known_features) PyFloat.inf
     = true
  /\ (forall kf kl, In (kf, kl) g ->
        PyFloat.lt (distance_euclidean features kf)
                   (distance_euclidean features known_features) = false)
  /\ (forall j kf kl, (j < i)%nat -> nth_error g j = Some (kf, kl) ->
        PrimFloat.eqb (distance_euclidean features kf)
                      (distance_euclidean features known_features) = false).

(** The state of the scan after the entries [seen]: still the initial
    one, no entry seen lying below [+inf]; or the distance and the label
    of the nearest entry seen. *)
Definition scanned (features : list float)
    (seen : list (list float * string)) (min_distance : float)
    (label : string) : Prop :=
  (min_distance = PyFloat.inf /\ label = "Unknown"
   /\ forall kf kl, In (kf, kl) seen ->
        PyFloat.lt (distance_euclidean features kf) PyFloat.inf = false)
  \/ (exists i kf,
        first_nearest features seen i kf label
        /\ min_distance = distance_euclidean features kf).

(** The label [assign_label] returns. *)
Definition matched_label (self : FacialRecognition) (features : list float)
    (recognition_threshold : float) : string :=
  let '(min_distance, label) :=
    nearest features (gallery self) PyFloat.inf "Unknown" in
  if PyFloat.gt min_distance recognition_threshold then "Unknown" else label.

(** What one detected face becomes in [recognize_faces]: skipped
    ([None]), or labelled from the embedding of its box. *)
Definition recognized_face (self : FacialRecognition) (frame : ndarray)
    (recognition_threshold : float) (face : face_dict)
    : outcome (option face_dict) :=
  if out_of_frame frame (box face) then Returned None
  else
    match embedding self (Some frame) (box face) with
    | Raised e => Raised e
    | Returned None => Returned None
    | Returned (Some features) =>
        Returned
          (Some (set_label face
                   (matched_label self features recognition_threshold)))
    end.

(** The faces [recognize_faces_loop] appends for [faces], when no face
    raises. *)
Fixpoint recognized (self : FacialRecognition) (frame : ndarray)
    (recognition_threshold : float) (faces : list face_dict)
    : list face_dict :=
  match faces with
  | [] => []
  | face :: rest =>
      match recognized_face self frame recognition_threshold face with
      | Returned (Some f) =>
          f :: recognized self frame recognition_threshold rest
      | _ => recognized self frame recognition_threshold rest
      end
  end.

(** The region [recognize_faces] hands to the recorder for a face:
    [frame[y:y + height, x:x + width]]. *)
Definition face_region (frame : ndarray) (face : face_dict) : ndarray :=
  let '(x, y, width, height) := box face in
  crop frame y (y + height) x (x + width).

(** The world after one call of [save_face_image]. *)
Definition recorded (face_img : ndarray) (label : string) (w : world)
    : world :=
  let faces_seen_dir := PyStr.join (MEDIA_ROOT settings) "faces_seen" in
  let filename :=
    (label ++ "_" ++ strftime_now (clock w) ++ ".jpg")%string in
  let filepath := PyStr.join faces_seen_dir filename in
  {| stdout :=
       stdout w ++ [FaceImageSavedLine filepath;
                    FaceRecordSavedLine label filename];
     paths :=
       if existsb (String.eqb faces_seen_dir) (paths w)
       then paths w else faces_seen_dir :: paths w;
     imwrites := imwrites w ++ [(filepath, face_img)];
     face_objects :=
       face_objects w ++ [(label, ("faces_seen/" ++ filename)%string)];
     clock := S (clock w) |}.

(** Between the worlds [w] and [w'] the recorder was called once for each
    face of [new], in order, with the face's region of [frame] and the
    face's label: one image written and one [Face] row created per call,
    and no other. *)
Definition sightings_added (frame : ndarray) (w w' : world)
    (new : list face_dict) : Prop :=
  map snd (imwrites w') = map snd (imwrites w) ++ map (face_region frame) new
  /\ map (fun r => Some (fst r)) (face_objects w')
     = map (fun r => Some (fst r)) (face_objects w) ++ map label new.

End Values.

(** ** A small installation to run the code on

    Stand-ins for the libraries, a gallery directory and a detector, used
    by the examples below. *)

Module Fixture.

(** A picture whose value at [(i, j, k)] is [seed + i + j + k]. *)
Definition picture (rows cols chans : nat) (seed : Z) : ndarray :=
  {| shape0 := rows; shape1 := cols; shape2 := chans;
     item := fun i j k => seed + Z.of_nat (i + j + k) |}.

(** Nearest-neighbour resampling; refuses an empty source or target, and
    an image of more than four channels. *)
Definition stub_resize (img : ndarray) (dsize : nat * nat) : option ndarray :=
  let '(width, height) := dsize in
  if (size img =? 0) || (4 <? shape2 img)%nat
     || (width =? 0)%nat || (height =? 0)%nat
  then None
  else
    Some {| shape0 := height; shape1 := width; shape2 := shape2 img;
            item := fun i j k =>
              item img (i * shape0 img / height) (j * shape1 img / width) k |}.

Definition stub_cvtColor (img : ndarray) (code : ColorConversionCode)
    : ndarray :=
  match code with
  | COLOR_BGR2GRAY =>
      {| shape0 := shape0 img; shape1 := shape1 img; shape2 := 1;
         item := fun i j _ =>
           (item img i j 0 + item img i j 1 + item img i j 2) / 3 |}
  | COLOR_GRAY2BGR =>
      {| shape0 := shape0 img; shape1 := shape1 img; shape2 := 3;
         item := fun i j _ => item img i j 0 |}
  end.

(** The gallery directory: two readable pictures, a file that is no
    picture, and a file of another kind. *)
Definition stub_imread (path : string) : option ndarray :=
  if String.eqb path "known_faces/alice.jpg" then Some (picture 240 320 3 10)
  else if String.eqb path "known_faces/bob.jpeg"
       then Some (picture 240 320 3 40)
       else None.

Definition stub_listdir (d : string) : list string :=
  if String.eqb d "known_faces"
  then ["alice.jpg"; "junk.png"; "notes.txt"; "bob.jpeg"]
  else [].

Definition float_of_Z (z : Z) : float := PrimFloat.of_uint63 (Uint63.of_Z z).

(** An embedding read off three fixed places of the array. *)
Definition stub_flatten (t : ndarray) : list float :=
  [float_of_Z (item t 0 0 0); float_of_Z (item t 1 0 0);
   float_of_Z (item t 0 1 1)].

Fixpoint sum_sq (u v : list float) : float :=
  match u, v with
  | a :: u', b :: v' => ((a - b) * (a - b) + sum_sq u' v')%float
  | _, _ => 0%float
  end.

Definition stub_euclidean (u v : list float) : float :=
  PrimFloat.sqrt (sum_sq u v).

(** The clock: the first two readings fall in the same second. *)
Definition stub_now (n : nat) : string :=
  match n with
  | O => "20240722_001700"
  | 1%nat => "20240722_001700"
  | _ => "20240722_001701"
  end.

Definition stub_warpAffine (img : ndarray) (m : list (Z * Z) * list (Z * Z))
    (dsize : nat * nat) : ndarray :=
  match fst m with
  | (x, y) :: _ =>
      {| shape0 := snd dsize; shape1 := fst dsize; shape2 := shape2 img;
         item := fun i j k => item img (Z.to_nat y + i) (Z.to_nat x + j) k |}
  | [] => img
  end.

Definition stub : Libs :=
  {| tensor := ndarray;
     affine := list (Z * Z) * list (Z * Z);
     cv2_resize := stub_resize;
     cv2_cvtColor := stub_cvtColor;
     cv2_imread := stub_imread;
     cv2_getAffineTransform := fun src dst => (src, dst);
     cv2_warpAffine := stub_warpAffine;
     np_array_float32 := fun img => img;
     np_expand_dims := fun t _ => t;
     preprocess_input := fun t => t;
     flatten := stub_flatten;
     distance_euclidean := stub_euclidean;
     os_listdir := stub_listdir;
     strftime_now := stub_now;
     settings := {| MODEL_DIR := "models"; KNOWN_FACES_DIR := "known_faces";
                    MEDIA_ROOT := "media" |} |}.

Definition stub_face (b : box_t) (c : float) : face_dict :=
  {| box := b; confidence := c; keypoints := []; label := None |}.

(** A detector that reports the same three candidates on every picture:
    one well above the default confidence threshold, one exactly at it,
    one below. *)
Definition three_faces (_ : ndarray) : list face_dict :=
  [stub_face (10, 10, 20, 20) 0.875%float;
   stub_face (50, 30, 40, 40) 0x1.6666666666666p-1%float;
   stub_face (90, 60, 20, 20) 0.5%float].

(** A detector whose first candidate sticks out of the frame on the left. *)
Definition off_left (_ : ndarray) : list face_dict :=
  [stub_face (-5, 10, 20, 20) 0.875%float;
   stub_face (10, 10, 20, 20) 0.875%float].

(** An object as [__init__] leaves it before [load_known_faces], without
    a landmark model. *)
Definition fresh (d : ndarray -> list face_dict)
    : @FacialRecognition stub :=
  {| detector := d; model := fun t => t;
     known_faces_features := []; known_faces_labels := [];
     shape_predictor := None |}.

(** The same object with a gallery of two people. *)
Definition with_gallery (d : ndarray -> list face_dict)
    (g : list (list float * string)) : @FacialRecognition stub :=
  {| detector := d; model := fun t => t;
     known_faces_features := map fst g; known_faces_labels := map snd g;
     shape_predictor := None |}.

(** The world at startup: the gallery directory exists, nothing has been
    printed or written. *)
Definition w0 : world :=
  {| stdout := []; paths := ["known_faces"]; imwrites := [];
     face_objects := []; clock := 0 |}.

(** A camera frame of 240 rows by 320 columns, and one of 480 by 640. *)
Definition demo_frame : ndarray := picture 240 320 3 11.
Definition vga_frame : ndarray := picture 480 640 3 11.

(** The embedding the stand-ins compute for [demo_frame]. *)
Definition demo_features : list float := [11%float; 12%float; 13%float].

(** A gallery of two people, the first at distance [sqrt 3] of
    [demo_features], the second much farther. *)
Definition two_people : list (list float * string) :=
  [([10%float; 11%float; 12%float], "alice");
   ([40%float; 41%float; 42%float], "bob")].

(** A gallery in which "alice" and "bob" both lie at distance 3 of
    [demo_features], behind "carol" at distance 7. *)
Definition tied_people : list (list float * string) :=
  [([11%float; 12%float; 20%float], "carol");
   ([14%float; 12%float; 13%float], "alice");
   ([11%float; 15%float; 13%float], "bob")].

(** The working image of a frame. *)
Definition small (frame : ndarray) : ndarray :=
  match stub_resize frame (160%nat, 120%nat) with
  | Some s => s
  | None => frame
  end.

(** The list a run returned ([[]] when it raised). *)
Definition returned {A : Type} (r : outcome (list A) * world) : list A :=
  match fst r with
  | Returned out => out
  | Raised _ => []
  end.

End Fixture.

(** ** Further notions used below *)

(** [out] is made of faces of [faces], in the order of [faces], each with
    a label set and nothing else changed. *)
Inductive labelled_from : list face_dict -> list face_dict -> Prop :=
| labelled_nil : labelled_from [] []
| labelled_skip (face : face_dict) (faces out : list face_dict) :
    labelled_from faces out -> labelled_from (face :: faces) out
| labelled_keep (face : face_dict) (l : string)
    (faces out : list face_dict) :
    labelled_from faces out ->
    labelled_from (face :: faces) (set_label face l :: out).

(** The fixture with a landmark model. *)
Module FixtureLandmarks.

Import Fixture.



(** A world in which the directory of sightings exists already. *)
Definition w1 : world :=
  {| stdout := []; paths := ["media/faces_seen"]; imwrites := [];
     face_objects := []; clock := 1 |}.

(** The object a run returned (a fresh one when it raised). *)
Definition object_of (r : outcome (@FacialRecognition stub) * world)
    : @FacialRecognition stub :=
  match fst r with
  | Returned self => self
  | Raised _ => fresh three_faces
  end.

(** Two faces as [_detect_faces] returns them on [demo_frame]. *)
Definition left_face : face_dict :=
  rescaled (stub_face (10, 10, 20, 20) 0.875%float).
Definition right_face : face_dict :=
  rescaled (stub_face (50, 30, 40, 40) 0.875%float).

End FixtureLandmarks.

(** ** The order of Python floats *)

Module PyFloatFacts.

Import PyFloat.

(** Case analysis on the comparison of the mantissas and exponents of
    finite numbers. *)
Ltac sf_cases :=
  repeat match goal with
  | b : bool |- _ => destruct b
  | |- context [Z.compare ?a ?b] => destruct (Z.compare_spec a b); subst
  | H : context [Z.compare ?a ?b] |- _ => destruct (Z.compare_spec a b); subst
  | |- context [Pos.compare ?a ?b] => destruct (Pos.compare_spec a b); subst
  | H : context [Pos.compare ?a ?b] |- _ =>
      destruct (Pos.compare_spec a b); subst
  end; simpl in *; try discriminate; try reflexivity; try lia.

Ltac sf_compare :=
  unfold SFltb, SFleb, SFeqb, SFcompare;
  repeat match goal with
  | x : spec_float |- _ => destruct x
  end;
  intros; try discriminate; try reflexivity; try congruence;
  change (Pos.compare_cont Eq) with Pos.compare in *; sf_cases.

Lemma SFltb_trans (a b c : spec_float) :
  SFltb a b = true -> SFltb b c = true -> SFltb a c = true.
Proof. sf_compare. Qed.

Lemma SFltb_asym (a b : spec_float) : SFltb a b = true -> SFltb b a = false.
Proof. sf_compare. Qed.

Lemma SFeqb_sym (a b : spec_float) : SFeqb a b = SFeqb b a.
Proof. sf_compare. Qed.

Lemma SFeqb_ltb (a b c : spec_float) :
  SFeqb a b = true -> SFltb b c = true -> SFltb a c = true.
Proof. sf_compare. Qed.

Lemma SFeqb_leb (a b : spec_float) : SFeqb a b = true -> SFleb b a = true.
Proof. sf_compare. Qed.

Lemma SFltb_total (a b : spec_float) :
  SFltb a (S754_infinity false) = true ->
  SFltb b (S754_infinity false) = true ->
  SFltb a b = false -> SFeqb a b = false -> SFltb b a = true.
Proof. sf_compare. Qed.

Lemma SFleb_not_ltb (a b : spec_float) :
  SFleb a b = true -> SFltb b a = false.
Proof. sf_compare. Qed.

Lemma SFleb_ltb (a b c : spec_float) :
  SFleb a b = true -> SFltb b c = true -> SFltb a c = true.
Proof. sf_compare. Qed.

Lemma SF_finite_ltb_infinity (a : spec_float) :
  SFeqb a a = true -> SFeqb (SFabs a) (S754_infinity false) = false ->
  SFltb a (S754_infinity false) = true.
Proof. unfold SFabs. sf_compare. Qed.

Lemma Prim2SF_inf : Prim2SF inf = S754_infinity false.
Proof. reflexivity. Qed.

Lemma lt_trans (a b c : float) :
  lt a b = true -> lt b c = true -> lt a c = true.
Proof. unfold lt. rewrite !ltb_spec. apply SFltb_trans. Qed.

Lemma lt_asym (a b : float) : lt a b = true -> lt b a = false.
Proof. unfold lt. rewrite !ltb_spec. apply SFltb_asym. Qed.

Lemma lt_irrefl (a : float) : lt a a = false.
Proof.
  destruct (lt a a) eqn:E; [|reflexivity].
  pose proof (lt_asym _ _ E). congruence.
Qed.

Lemma eqb_sym (a b : float) : PrimFloat.eqb a b = PrimFloat.eqb b a.
Proof. rewrite !eqb_spec. apply SFeqb_sym. Qed.

Lemma eqb_lt (a b c : float) :
  PrimFloat.eqb a b = true -> lt b c = true -> lt a c = true.
Proof. unfold lt. rewrite eqb_spec, !ltb_spec. apply SFeqb_ltb. Qed.

Lemma eqb_ge (a b : float) : PrimFloat.eqb a b = true -> ge a b = true.
Proof. unfold ge. rewrite eqb_spec, leb_spec. apply SFeqb_leb. Qed.

Lemma lt_total (a b : float) :
  lt a inf = true -> lt b inf = true ->
  lt a b = false -> PrimFloat.eqb a b = false -> lt b a = true.
Proof.
  unfold lt. rewrite eqb_spec, !ltb_spec, Prim2SF_inf. apply SFltb_total.
Qed.

Lemma le_not_gt (a b : float) : le a b = true -> gt a b = false.
Proof. unfold le, gt. rewrite ltb_spec, leb_spec. apply SFleb_not_ltb. Qed.

Lemma le_lt (a b c : float) : le a b = true -> lt b c = true -> lt a c = true.
Proof. unfold le, lt. rewrite leb_spec, !ltb_spec. apply SFleb_ltb. Qed.

Lemma finite_lt_inf (a : float) : is_finite a = true -> lt a inf = true.
Proof.
  unfold is_finite, is_nan, is_infinity, lt.
  rewrite negb_true_iff, orb_false_iff, negb_false_iff.
  rewrite !eqb_spec, abs_spec, ltb_spec.
  change (Prim2SF infinity) with (S754_infinity false).
  rewrite Prim2SF_inf.
  intros [H1 H2]. now apply SF_finite_ltb_infinity.
Qed.

End PyFloatFacts.

(** ** Strings and paths *)

Module PyStrFacts.

Import PyStr.

Lemma substring_whole (s : string) : substring 0 (String.length s) s = s.
Proof. induction s as [|c s IH]; simpl; [reflexivity | now rewrite IH]. Qed.

Lemma upto_from (p : string) :
  forall i : nat, (upto i p ++ from i p)%string = p.
Proof.
  unfold upto, from. induction p as [|c p IH]; intros [|i]; simpl;
    try reflexivity.
  - now rewrite substring_whole.
  - now rewrite IH.
Qed.

Lemma append_empty (s : string) : (s ++ "")%string = s.
Proof. induction s as [|c s IH]; simpl; [reflexivity | now rewrite IH]. Qed.

Lemma length_app (a b : string) :
  String.length (a ++ b) = (String.length a + String.length b)%nat.
Proof. induction a as [|c a IH]; simpl; [reflexivity | now rewrite IH]. Qed.

Lemma substring_app_tail (a b : string) :
  substring (String.length a) (String.length b) (a ++ b) = b.
Proof.
  induction a as [|c a IH]; simpl; [apply substring_whole | exact IH].
Qed.

Lemma endswith_app (a b : string) : endswith (a ++ b) b = true.
Proof.
  unfold endswith. rewrite length_app.
  replace (String.length a + String.length b - String.length b)%nat
    with (String.length a) by lia.
  rewrite substring_app_tail, String.eqb_refl, andb_true_r.
  apply Nat.leb_le. lia.
Qed.

(** The two parts [splitext] returns make up the path. *)
Lemma splitext_app (p : string) :
  (fst (splitext p) ++ snd (splitext p))%string = p.
Proof.
  unfold splitext. destruct (_ && _); simpl.
  - apply upto_from.
  - apply append_empty.
Qed.

Lemma endswith_extension (p : string) : endswith p (snd (splitext p)) = true.
Proof.
  rewrite <- (splitext_app p) at 1. apply endswith_app.
Qed.

End PyStrFacts.

(** ** Running the monad *)

Lemma say_nil (w : world) : say [] w = w.
Proof. destruct w. unfold say. simpl. now rewrite app_nil_r. Qed.

Lemma say_say (ls1 ls2 : list line) (w : world) :
  say ls2 (say ls1 w) = say (ls1 ++ ls2) w.
Proof. unfold say. simpl. now rewrite app_assoc. Qed.

Lemma computes_ret {A : Type} (a : A) : computes (ret a) (Returned a).
Proof. intros w. exists []. now rewrite say_nil. Qed.

Lemma computes_raise {A : Type} (e : exn) : computes (@raise A e) (Raised e).
Proof. intros w. exists []. now rewrite say_nil. Qed.

Lemma computes_print (l : line) : computes (print l) (Returned tt).
Proof. intros w. now exists [l]. Qed.

Lemma computes_bind {A B : Type} (m : M A) (k : A -> M B) (a : A)
    (v : outcome B) :
  computes m (Returned a) -> computes (k a) v -> computes (bind m k) v.
Proof.
  intros Hm Hk w. destruct (Hm w) as [ls1 E1].
  destruct (Hk (say ls1 w)) as [ls2 E2].
  exists (ls1 ++ ls2). unfold bind. now rewrite E1, E2, say_say.
Qed.

Lemma computes_bind_raised {A B : Type} (m : M A) (k : A -> M B) (e : exn) :
  computes m (Raised e) -> computes (bind m k) (Raised e).
Proof.
  intros Hm w. destruct (Hm w) as [ls E]. exists ls. unfold bind.
  now rewrite E.
Qed.

(** A computation that only prints leaves everything else as it was. *)
Lemma computes_quiet {A : Type} (m : M A) (v : outcome A) (w : world) :
  computes m v ->
  fst (m w) = v /\ paths (snd (m w)) = paths w
  /\ imwrites (snd (m w)) = imwrites w
  /\ face_objects (snd (m w)) = face_objects w
  /\ clock (snd (m w)) = clock w.
Proof. intros H. destruct (H w) as [ls ->]. now simpl. Qed.

Section Facts.

Context {L : Libs}.

Lemma resize_computes (img : ndarray) (dsize : nat * nat) :
  computes (resize img dsize)
    match cv2_resize img dsize with
    | Some r => Returned r
    | None => Raised cv2_error
    end.
Proof.
  unfold resize. destruct (cv2_resize img dsize).
  - apply computes_ret.
  - apply computes_raise.
Qed.

Lemma _detect_faces_computes (self : FacialRecognition)
    (img : option ndarray) (confidence_threshold : float) :
  computes (_detect_faces self img confidence_threshold)
           (Returned (detections self img confidence_threshold)).
Proof.
  unfold _detect_faces, detections.
  destruct img as [a|].
  - destruct (size a =? 0).
    + eapply computes_bind; [apply computes_print | apply computes_ret].
    + intros w. unfold bind, try_except, resize.
      destruct (cv2_resize a (160%nat, 120%nat)); simpl.
      * exists []. now rewrite say_nil.
      * now exists [ResizeErrorLine].
  - eapply computes_bind; [apply computes_print | apply computes_ret].
Qed.

Lemma index_computes {A : Type} (l : list A) (i : nat) :
  computes (index l i)
    match nth_error l i with
    | Some a => Returned a
    | None => Raised IndexError
    end.
Proof.
  unfold index. destruct (nth_error l i).
  - apply computes_ret.
  - apply computes_raise.
Qed.

Lemma _align_face_computes (self : FacialRecognition)
    (img : option ndarray) (b : box_t) :
  computes (_align_face self img b) (aligned self img b).
Proof.
  destruct b as [[[x y] w] h]. unfold _align_face, aligned.
  destruct (shape_predictor self) as [predictor|].
  - destruct img as [a|]; [|apply computes_raise].
    unfold _warp_affine.
    set (points := predictor a (x, y, x + w, y + h)).
    pose proof (index_computes points 36) as H36.
    pose proof (index_computes points 45) as H45.
    pose proof (index_computes points 30) as H30.
    destruct (nth_error points 36) as [p36|];
      [|now repeat apply computes_bind_raised].
    destruct (nth_error points 45) as [p45|].
    2:{ apply computes_bind_raised. eapply computes_bind; [exact H36|].
        now apply computes_bind_raised. }
    destruct (nth_error points 30) as [p30|].
    2:{ apply computes_bind_raised. eapply computes_bind; [exact H36|].
        eapply computes_bind; [exact H45|].
        now apply computes_bind_raised. }
    eapply computes_bind; [|apply computes_ret].
    eapply computes_bind; [exact H36|].
    eapply computes_bind; [exact H45|].
    eapply computes_bind; [exact H30|]. apply computes_ret.
  - eapply computes_bind; [apply computes_print | apply computes_ret].
Qed.

Lemma _preprocess_image_computes (img : option ndarray) :
  computes (_preprocess_image img) (preprocessed img).
Proof.
  unfold _preprocess_image, preprocessed.
  destruct img as [a|]; [|apply computes_ret].
  destruct (size a =? 0); [apply computes_ret|].
  pose proof (resize_computes a (224%nat, 224%nat)) as H.
  destruct (cv2_resize a (224%nat, 224%nat)).
  - eapply computes_bind; [exact H | apply computes_ret].
  - now apply computes_bind_raised.
Qed.

Lemma _extract_features_Some (self : FacialRecognition) (a : tensor) :
  _extract_features self (Some a) = Some (flatten (model self a)).
Proof. reflexivity. Qed.

(** The three steps on one box, as [_preprocess_and_extract] and
    [recognize_face] chain them. *)
Lemma embedding_computes (self : FacialRecognition) (img : option ndarray)
    (b : box_t) :
  computes
    (aligned_face <- _align_face self img b ;;
     face_array <- _preprocess_image aligned_face ;;
     match face_array with
     | None => ret None
     | Some _ => ret (_extract_features self face_array)
     end)
    (embedding self img b).
Proof.
  unfold embedding.
  pose proof (_align_face_computes self img b) as Ha.
  destruct (aligned self img b) as [aligned_face|e];
    [|now apply computes_bind_raised].
  eapply computes_bind; [exact Ha|].
  pose proof (_preprocess_image_computes aligned_face) as Hp.
  destruct (preprocessed aligned_face) as [[a|]|e].
  - eapply computes_bind; [exact Hp | apply computes_ret].
  - eapply computes_bind; [exact Hp | apply computes_ret].
  - now apply computes_bind_raised.
Qed.

Lemma _preprocess_and_extract_computes (self : FacialRecognition)
    (img : option ndarray) :
  computes (_preprocess_and_extract self img) (first_face_features self img).
Proof.
  unfold _preprocess_and_extract, first_face_features.
  eapply computes_bind; [apply _detect_faces_computes|].
  destruct (detections self img default_confidence_threshold)
    as [|face0 rest]; [apply computes_ret|].
  destruct (box face0) as [[[x y] width] height].
  apply embedding_computes.
Qed.

Lemma nearest_scan_computes (features : list float)
    (g : list (list float * string)) (min_distance : float) (label : string) :
  computes (nearest_scan features g min_distance label)
           (Returned (nearest features g min_distance label)).
Proof.
  revert min_distance label.
  induction g as [|[known_features known_label] rest IH]; intros; simpl.
  - apply computes_ret.
  - eapply computes_bind; [apply computes_print|].
    destruct (PyFloat.lt _ _); apply IH.
Qed.

Lemma assign_label_computes (self : FacialRecognition)
    (features : list float) (recognition_threshold : float) :
  computes (assign_label self features recognition_threshold)
           (Returned (matched_label self features recognition_threshold)).
Proof.
  unfold assign_label, matched_label, gallery.
  eapply computes_bind; [apply nearest_scan_computes|].
  destruct (nearest _ _ _ _). apply computes_ret.
Qed.

Lemma save_face_image_run (face_img : ndarray) (label : string) (w : world) :
  save_face_image face_img label w = (Returned tt, recorded face_img label w).
Proof.
  unfold save_face_image, recorded, bind, os_path_exists, os_makedirs,
    datetime_now_strftime, cv2_imwrite, Face_objects_create, print, ret.
  simpl.
  destruct (existsb _ (paths w)); simpl; now rewrite <- app_assoc.
Qed.

Lemma recognize_face_run (self : FacialRecognition) (frame : ndarray)
    (recognition_threshold : float) (recognized_faces : list face_dict)
    (face : face_dict) (w : world) :
  exists ls,
    recognize_face self frame recognition_threshold recognized_faces face w =
    if out_of_frame frame (box face) then (Returned recognized_faces, w)
    else
      match embedding self (Some frame) (box face) with
      | Raised e => (Raised e, say ls w)
      | Returned None => (Returned recognized_faces, say ls w)
      | Returned (Some features) =>
          let label := matched_label self features recognition_threshold in
          (Returned (recognized_faces ++ [set_label face label]),
           recorded (face_region frame face) label (say ls w))
      end.
Proof.
  unfold recognize_face, face_region, embedding.
  destruct (box face) as [[[x y] width] height] eqn:Eb.
  destruct (out_of_frame frame (x, y, width, height)); [now exists []|].
  destruct (_align_face_computes self (Some frame) (x, y, width, height) w)
    as [ls1 E1].
  unfold bind at 1. rewrite E1.
  destruct (aligned self (Some frame) (x, y, width, height))
    as [aligned_face|e]; [|now exists ls1].
  destruct (_preprocess_image_computes aligned_face (say ls1 w)) as [ls2 E2].
  unfold bind at 1. rewrite E2, say_say.
  destruct (preprocessed aligned_face) as [[a|]|e];
    [|now exists (ls1 ++ ls2)|now exists (ls1 ++ ls2)].
  rewrite _extract_features_Some.
  destruct (assign_label_computes self (flatten (model self a))
              recognition_threshold (say (ls1 ++ ls2) w)) as [ls3 E3].
  unfold bind at 1. rewrite E3, say_say.
  unfold bind, ret. rewrite save_face_image_run.
  now exists ((ls1 ++ ls2) ++ ls3).
Qed.

Lemma sightings_added_refl (frame : ndarray) (w : world) :
  sightings_added frame w w [].
Proof. unfold sightings_added. simpl. now rewrite !app_nil_r. Qed.

Lemma sightings_added_say (frame : ndarray) (ls : list line) (w : world) :
  sightings_added frame w (say ls w) [].
Proof. unfold sightings_added. simpl. now rewrite !app_nil_r. Qed.

Lemma sightings_added_trans (frame : ndarray) (w1 w2 w3 : world)
    (n1 n2 : list face_dict) :
  sightings_added frame w1 w2 n1 -> sightings_added frame w2 w3 n2 ->
  sightings_added frame w1 w3 (n1 ++ n2).
Proof.
  unfold sightings_added. intros [H1 H1'] [H2 H2'].
  rewrite H2, H1, H2', H1', !map_app, !app_assoc. now split.
Qed.

Lemma sightings_added_recorded (frame : ndarray) (face : face_dict)
    (l : string) (w : world) :
  sightings_added frame w (recorded (face_region frame face) l w)
    [set_label face l].
Proof. unfold sightings_added. simpl. now rewrite !map_app. Qed.

(** One turn of the loop of [recognize_faces], in terms of
    [recognized_face]. *)
Lemma recognize_face_step (self : FacialRecognition) (frame : ndarray)
    (recognition_threshold : float) (recognized_faces : list face_dict)
    (face : face_dict) (w : world) :
  exists w',
    sightings_added frame w w'
      match recognized_face self frame recognition_threshold face with
      | Returned (Some f) => [f]
      | _ => []
      end
    /\ recognize_face self frame recognition_threshold recognized_faces face w
       = match recognized_face self frame recognition_threshold face with
         | Raised e => (Raised e, w')
         | Returned None => (Returned recognized_faces, w')
         | Returned (Some f) => (Returned (recognized_faces ++ [f]), w')
         end.
Proof.
  destruct (recognize_face_run self frame recognition_threshold
              recognized_faces face w) as [ls E].
  rewrite E. unfold recognized_face.
  destruct (out_of_frame frame (box face)).
  - exists w. split; [apply sightings_added_refl | reflexivity].
  - destruct (embedding self (Some frame) (box face)) as [[features|]|e].
    + eexists. split; [|reflexivity].
      apply (sightings_added_trans frame w (say ls w) _ [] _).
      * apply sightings_added_say.
      * apply sightings_added_recorded.
    + exists (say ls w). split; [apply sightings_added_say | reflexivity].
    + exists (say ls w). split; [apply sightings_added_say | reflexivity].
Qed.

Lemma recognize_faces_loop_run (self : FacialRecognition) (frame : ndarray)
    (recognition_threshold : float) (faces : list face_dict) :
  forall (recognized_faces : list face_dict) (w : world),
    match recognize_faces_loop self frame recognition_threshold faces
            recognized_faces w with
    | (Returned out, w') =>
        out = recognized_faces
              ++ recognized self frame recognition_threshold faces
        /\ sightings_added frame w w'
             (recognized self frame recognition_threshold faces)
        /\ forall face e, In face faces ->
             recognized_face self frame recognition_threshold face
             <> Raised e
    | (Raised e, _) =>
        exists face, In face faces
          /\ recognized_face self frame recognition_threshold face = Raised e
    end.
Proof.
  induction faces as [|face rest IH]; intros acc w; simpl.
  - rewrite app_nil_r. split; [reflexivity | split].
    + apply sightings_added_refl.
    + intros _ _ [].
  - destruct (recognize_face_step self frame recognition_threshold acc face w)
      as (w1 & Hs & E).
    unfold bind. rewrite E. clear E.
    destruct (recognized_face self frame recognition_threshold face)
      as [[f|]|e] eqn:Ef.
    + specialize (IH (acc ++ [f]) w1).
      destruct (recognize_faces_loop _ _ _ rest _ w1) as [[out|e'] w'].
      * destruct IH as (-> & Hs' & Hn). split; [|split].
        -- now rewrite <- app_assoc.
        -- apply (sightings_added_trans frame w w1 w' [f] _ Hs Hs').
        -- intros g e [<-|Hin]; [congruence | now apply Hn].
      * destruct IH as (g & Hin & Hg). exists g. split; [now right | exact Hg].
    + specialize (IH acc w1).
      destruct (recognize_faces_loop _ _ _ rest _ w1) as [[out|e'] w'].
      * destruct IH as (-> & Hs' & Hn). split; [reflexivity | split].
        -- apply (sightings_added_trans frame w w1 w' [] _ Hs Hs').
        -- intros g e [<-|Hin]; [congruence | now apply Hn].
      * destruct IH as (g & Hin & Hg). exists g. split; [now right | exact Hg].
    + exists face. split; [now left | exact Ef].
Qed.

(** [recognize_faces] as a whole: what it returns when it returns. *)
Lemma recognize_faces_returned (self : FacialRecognition) (frame : ndarray)
    (recognition_threshold : float) (w w' : world) (out : list face_dict) :
  recognize_faces self frame recognition_threshold w = (Returned out, w') ->
  out = recognized self frame recognition_threshold
          (detections self
             (Some (cv2_cvtColor (cv2_cvtColor frame COLOR_BGR2GRAY)
                      COLOR_GRAY2BGR))
             default_confidence_threshold)
  /\ sightings_added frame w w' out.
Proof.
  unfold recognize_faces. intros H.
  destruct (_detect_faces_computes self
              (Some (cv2_cvtColor (cv2_cvtColor frame COLOR_BGR2GRAY)
                       COLOR_GRAY2BGR))
              default_confidence_threshold w) as [ls E].
  unfold bind in H. rewrite E in H.
  pose proof (recognize_faces_loop_run self frame recognition_threshold
                (detections self
                   (Some (cv2_cvtColor (cv2_cvtColor frame COLOR_BGR2GRAY)
                            COLOR_GRAY2BGR))
                   default_confidence_threshold) [] (say ls w)) as R.
  rewrite H in R. destruct R as (-> & Hs & _). simpl. split; [reflexivity|].
  apply (sightings_added_trans frame w (say ls w) w' [] _).
  - apply sightings_added_say.
  - exact Hs.
Qed.

(** ... and it does return unless a collaborator raises on a face. *)
Lemma recognize_faces_returns (self : FacialRecognition) (frame : ndarray)
    (recognition_threshold : float) (w : world) :
  (forall face e,
      recognized_face self frame recognition_threshold face <> Raised e) ->
  exists out w',
    recognize_faces self frame recognition_threshold w = (Returned out, w').
Proof.
  intros Hn. unfold recognize_faces.
  destruct (_detect_faces_computes self
              (Some (cv2_cvtColor (cv2_cvtColor frame COLOR_BGR2GRAY)
                       COLOR_GRAY2BGR))
              default_confidence_threshold w) as [ls E].
  unfold bind. rewrite E.
  pose proof (recognize_faces_loop_run self frame recognition_threshold
                (detections self
                   (Some (cv2_cvtColor (cv2_cvtColor frame COLOR_BGR2GRAY)
                            COLOR_GRAY2BGR))
                   default_confidence_threshold) [] (say ls w)) as R.
  destruct (recognize_faces_loop _ _ _ _ _ _) as [[out|e] w'].
  - now exists out, w'.
  - destruct R as (g & _ & Hg). now apply Hn in Hg.
Qed.

(** *** The scan of the gallery *)

Lemma nearest_app (features : list float)
    (g1 g2 : list (list float * string)) (min_distance : float)
    (label : string) :
  nearest features (g1 ++ g2) min_distance label
  = let '(md, l) := nearest features g1 min_distance label in
    nearest features g2 md l.
Proof.
  revert min_distance label.
  induction g1 as [|[kf kl] g1 IH]; intros; simpl; [reflexivity|].
  destruct (PyFloat.lt _ _); apply IH.
Qed.

(** No entry seen is closer than the running minimum. *)
Lemma scanned_lower_bound (features : list float)
    (seen : list (list float * string)) (min_distance : float)
    (label : string) (kf : list float) (kl : string) :
  scanned features seen min_distance label -> In (kf, kl) seen ->
  PyFloat.lt (distance_euclidean features kf) min_distance = false.
Proof.
  intros [(-> & _ & H)|(i & kf0 & (_ & _ & H & _) & ->)] Hin;
    now apply (H kf kl).
Qed.

Lemma scanned_step (features : list float)
    (seen : list (list float * string)) (min_distance : float)
    (label : string) (kf : list float) (kl : string) :
  scanned features seen min_distance label ->
  let dist := distance_euclidean features kf in
  if PyFloat.lt dist min_distance
  then scanned features (seen ++ [(kf, kl)]) dist kl
  else scanned features (seen ++ [(kf, kl)]) min_distance label.
Proof.
  intros Hs. cbv zeta.
  destruct (PyFloat.lt (distance_euclidean features kf) min_distance) eqn:Hlt.
  - (* the entry becomes the nearest *)
    right. exists (List.length seen), kf. split; [|reflexivity].
    split; [|split; [|split]].
    + rewrite nth_error_app2 by lia. now rewrite Nat.sub_diag.
    + destruct Hs as [(-> & _)|(i & kf0 & (_ & Hinf & _) & ->)].
      * exact Hlt.
      * apply (PyFloatFacts.lt_trans _ _ _ Hlt Hinf).
    + intros kf' kl' Hin. apply in_app_or in Hin.
      destruct Hin as [Hin|[[= <- <-]|[]]].
      * pose proof (scanned_lower_bound _ _ _ _ _ _ Hs Hin) as Hb.
        destruct (PyFloat.lt (distance_euclidean features kf')
                    (distance_euclidean features kf)) eqn:E; [|reflexivity].
        rewrite (PyFloatFacts.lt_trans _ _ _ E Hlt) in Hb. discriminate.
      * apply PyFloatFacts.lt_irrefl.
    + intros j kf' kl' Hj Hnth.
      rewrite nth_error_app1 in Hnth by exact Hj.
      apply nth_error_In in Hnth.
      pose proof (scanned_lower_bound _ _ _ _ _ _ Hs Hnth) as Hb.
      destruct (PrimFloat.eqb (distance_euclidean features kf')
                  (distance_euclidean features kf)) eqn:E; [|reflexivity].
      rewrite (PyFloatFacts.eqb_lt _ _ _ E Hlt) in Hb. discriminate.
  - (* the state stays *)
    destruct Hs as [(-> & -> & H)|(i & kf0 & (Hn & Hinf & Hlow & Hfirst) & ->)].
    + left. split; [reflexivity | split; [reflexivity|]].
      intros kf' kl' Hin. apply in_app_or in Hin.
      destruct Hin as [Hin|[[= <- <-]|[]]]; [now apply (H kf' kl') | exact Hlt].
    + right. exists i, kf0. split; [|reflexivity].
      assert (Hi : (i < List.length seen)%nat)
        by (apply nth_error_Some; congruence).
      split; [|split; [|split]].
      * now rewrite nth_error_app1.
      * exact Hinf.
      * intros kf' kl' Hin. apply in_app_or in Hin.
        destruct Hin as [Hin|[[= <- <-]|[]]];
          [now apply (Hlow kf' kl') | exact Hlt].
      * intros j kf' kl' Hj Hnth.
        rewrite nth_error_app1 in Hnth by lia.
        now apply (Hfirst j kf' kl').
Qed.

Lemma nearest_scanned (features : list float)
    (rest : list (list float * string)) :
  forall (seen : list (list float * string)) (min_distance : float)
         (label : string),
    scanned features seen min_distance label ->
    scanned features (seen ++ rest)
      (fst (nearest features rest min_distance label))
      (snd (nearest features rest min_distance label)).
Proof.
  induction rest as [|[kf kl] rest IH]; intros seen md l Hs; simpl.
  - now rewrite app_nil_r.
  - pose proof (scanned_step features seen md l kf kl Hs) as Hstep.
    simpl in Hstep.
    replace (seen ++ (kf, kl) :: rest) with ((seen ++ [(kf, kl)]) ++ rest)
      by now rewrite <- app_assoc.
    destruct (PyFloat.lt _ md); now apply IH.
Qed.

(** The whole scan, from [float('inf')] and ['Unknown']. *)
Lemma nearest_spec (features : list float) (g : list (list float * string)) :
  scanned features g
    (fst (nearest features g PyFloat.inf "Unknown"))
    (snd (nearest features g PyFloat.inf "Unknown")).
Proof.
  apply (nearest_scanned features g []).
  left. split; [reflexivity | split; [reflexivity|]]. intros _ _ [].
Qed.

(** There is at most one nearest entry in the sense of [first_nearest]. *)
Lemma first_nearest_unique (features : list float)
    (g : list (list float * string)) (i i' : nat) (kf kf' : list float)
    (kl kl' : string) :
  first_nearest features g i kf kl -> first_nearest features g i' kf' kl' ->
  i = i' /\ kf = kf' /\ kl = kl'.
Proof.
  intros (Hn & Hinf & Hlow & Hfirst) (Hn' & Hinf' & Hlow' & Hfirst').
  assert (Heq : PrimFloat.eqb (distance_euclidean features kf)
                  (distance_euclidean features kf') = true).
  { destruct (PrimFloat.eqb _ _) eqn:E; [reflexivity|].
    pose proof (Hlow' kf kl (nth_error_In _ _ Hn)) as H1.
    pose proof (Hlow kf' kl' (nth_error_In _ _ Hn')) as H2.
    rewrite (PyFloatFacts.lt_total _ _ Hinf Hinf' H1 E) in H2.
    discriminate. }
  assert (i = i') as <-.
  { destruct (Nat.lt_trichotomy i i') as [Hlt|[Heq'|Hgt]]; [|exact Heq'|].
    - rewrite (Hfirst' i kf kl Hlt Hn) in Heq. discriminate.
    - rewrite PyFloatFacts.eqb_sym in Heq.
      rewrite (Hfirst i' kf' kl' Hgt Hn') in Heq. discriminate. }
  split; [reflexivity|]. rewrite Hn in Hn'. now injection Hn' as -> ->.
Qed.

(** The scan ends on the nearest entry, when there is one. *)
Lemma nearest_first_nearest (features : list float)
    (g : list (list float * string)) (i : nat) (kf : list float)
    (kl : string) :
  first_nearest features g i kf kl ->
  nearest features g PyFloat.inf "Unknown"
  = (distance_euclidean features kf, kl).
Proof.
  intros Hf. pose proof (nearest_spec features g) as Hs.
  destruct (nearest features g PyFloat.inf "Unknown") as [md l].
  simpl in Hs.
  destruct Hs as [(_ & _ & H)|(i' & kf' & Hf' & ->)].
  - destruct Hf as (Hn & Hinf & _).
    rewrite (H kf kl (nth_error_In _ _ Hn)) in Hinf. discriminate.
  - destruct (first_nearest_unique _ _ _ _ _ _ _ _ Hf' Hf) as (_ & -> & ->).
    reflexivity.
Qed.

(** The label of the scan is the initial one or a label of the gallery. *)
Lemma nearest_label (features : list float)
    (g : list (list float * string)) :
  forall (min_distance : float) (label : string),
    snd (nearest features g min_distance label) = label
    \/ In (snd (nearest features g min_distance label)) (map snd g).
Proof.
  induction g as [|[kf kl] g IH]; intros md l; simpl; [now left|].
  destruct (PyFloat.lt _ md).
  - destruct (IH (distance_euclidean features kf) kl) as [->|H]; auto.
  - destruct (IH md l) as [->|H]; auto.
Qed.

Lemma matched_label_cases (self : FacialRecognition) (features : list float)
    (recognition_threshold : float) :
  matched_label self features recognition_threshold = "Unknown"
  \/ In (matched_label self features recognition_threshold)
        (known_faces_labels self).
Proof.
  unfold matched_label, gallery.
  pose proof (nearest_label features
                (combine (known_faces_features self)
                   (known_faces_labels self)) PyFloat.inf "Unknown") as H.
  destruct (nearest _ _ _ _) as [md l]. simpl in H.
  destruct (PyFloat.gt md recognition_threshold); [now left|].
  destruct H as [->|H]; [now left | right].
  apply in_map_iff in H. destruct H as ([kf kl] & <- & Hin).
  now apply in_combine_r in Hin.
Qed.

(** Where the faces of [recognized] come from. *)
Lemma recognized_In (self : FacialRecognition) (frame : ndarray)
    (recognition_threshold : float) (faces : list face_dict)
    (f : face_dict) :
  In f (recognized self frame recognition_threshold faces) ->
  exists face features,
    In face faces /\ out_of_frame frame (box face) = false
    /\ embedding self (Some frame) (box face) = Returned (Some features)
    /\ f = set_label face
             (matched_label self features recognition_threshold).
Proof.
  induction faces as [|face rest IH]; simpl; [intros []|].
  unfold recognized_face at 1.
  destruct (out_of_frame frame (box face)) eqn:Eo.
  - intros H. destruct (IH H) as (g & q & Hin & Hg). exists g, q.
    split; [now right | exact Hg].
  - destruct (embedding self (Some frame) (box face)) as [[q|]|e] eqn:Ee.
    + intros [<-|H].
      * exists face, q. split; [now left|]. now repeat split.
      * destruct (IH H) as (g & q' & Hin & Hg). exists g, q'.
        split; [now right | exact Hg].
    + intros H. destruct (IH H) as (g & q' & Hin & Hg). exists g, q'.
      split; [now right | exact Hg].
    + intros H. destruct (IH H) as (g & q' & Hin & Hg). exists g, q'.
      split; [now right | exact Hg].
Qed.

(** ** The detector *)

(** The boxes [_detect_faces] returns are the detector's, every coordinate
    doubled, whatever the shape of the image. *)
Lemma detections_boxes (self : FacialRecognition) (a : ndarray)
    (small_img : ndarray) (confidence_threshold : float) (f : face_dict) :
  size a <> 0 -> cv2_resize a (160%nat, 120%nat) = Some small_img ->
  In f (detections self (Some a) confidence_threshold) ->
  exists candidate x y w h,
    In candidate (detector self small_img)
    /\ box candidate = (x, y, w, h)
    /\ box f = (x * 2, y * 2, w * 2, h * 2).
Proof.
  intros Hs Hr. unfold detections. apply Z.eqb_neq in Hs. rewrite Hs, Hr.
  intros Hin. apply filter_In in Hin. destruct Hin as [Hin _].
  apply in_map_iff in Hin. destruct Hin as (c & <- & Hc).
  destruct (box c) as [[[x y] w] h] eqn:Eb. exists c, x, y, w, h.
  split; [exact Hc | split; [exact Eb|]].
  unfold rescaled. now rewrite Eb.
Qed.

(** C4. For a null image, an image of size zero, and an image whose
    resize to 160 by 120 raises [cv2.error], [_detect_faces] returns the
    empty list; it prints one line and raises nothing. *)
Theorem _detect_faces_fails_soft (self : FacialRecognition)
    (img : option ndarray) (confidence_threshold : float) (w : world) :
  match img with
  | None => True
  | Some a => size a = 0 \/ cv2_resize a (160%nat, 120%nat) = None
  end ->
  exists l,
    _detect_faces self img confidence_threshold w = (Returned [], say [l] w)
    /\ l = match img with
           | None => EmptyImageLine
           | Some a => if size a =? 0 then EmptyImageLine else ResizeErrorLine
           end.
Proof.
  intros H. unfold _detect_faces. destruct img as [a|].
  - destruct (size a =? 0) eqn:E.
    + now exists EmptyImageLine.
    + destruct H as [H|H]; [apply Z.eqb_neq in E; contradiction|].
      exists ResizeErrorLine. split; [|reflexivity].
      unfold bind, try_except, resize. now rewrite H.
  - now exists EmptyImageLine.
Qed.

(** C5. When detection runs, a candidate of the detector is in the result
    (with its box rescaled) exactly when its confidence is [>=] the
    threshold; a confidence equal to the threshold is in. *)
Theorem _detect_faces_confidence_threshold (self : FacialRecognition)
    (a small_img : ndarray) (confidence_threshold : float) (w : world) :
  size a <> 0 -> cv2_resize a (160%nat, 120%nat) = Some small_img ->
  exists out,
    _detect_faces self (Some a) confidence_threshold w = (Returned out, w)
    /\ out = filter (fun face =>
                       PyFloat.ge (confidence face) confidence_threshold)
                    (map rescaled (detector self small_img))
    /\ (forall candidate, In candidate (detector self small_img) ->
          (In (rescaled candidate) out
           <-> PyFloat.ge (confidence candidate) confidence_threshold = true))
    /\ (forall candidate, In candidate (detector self small_img) ->
          PrimFloat.eqb (confidence candidate) confidence_threshold = true ->
          In (rescaled candidate) out).
Proof.
  intros Hs Hr. apply Z.eqb_neq in Hs.
  assert (Hconf : forall c, confidence (rescaled c) = confidence c).
  { intros c. unfold rescaled. now destruct (box c) as [[[x y] w1] h]. }
  assert (Hiff : forall candidate, In candidate (detector self small_img) ->
            (In (rescaled candidate)
                (filter (fun face =>
                           PyFloat.ge (confidence face) confidence_threshold)
                        (map rescaled (detector self small_img)))
             <-> PyFloat.ge (confidence candidate) confidence_threshold
                 = true)).
  { intros c Hc. rewrite filter_In, Hconf. split; [now intros [_ H]|].
    intros H. split; [now apply in_map | exact H]. }
  eexists. split; [|split; [reflexivity | split; [exact Hiff|]]].
  - unfold _detect_faces, bind, try_except, resize. now rewrite Hs, Hr.
  - intros c Hc He. apply (Hiff c Hc). now apply PyFloatFacts.eqb_ge.
Qed.

(** ** [recognize_faces] *)

(** C6. A detected face whose box leaves the frame ([x < 0], [y < 0],
    [x + width > frame.shape[1]] or [y + height > frame.shape[0]]) is
    passed over: its turn of the loop changes neither the list of
    recognized faces nor the world (so no recorder call), the whole loop
    runs as if the face had not been detected, and no face
    [recognize_faces] returns has its box, the recorder having been called
    for the returned faces only. *)
Theorem recognize_faces_skips_out_of_frame (self : FacialRecognition)
    (frame : ndarray) (recognition_threshold : float) (face : face_dict) :
  out_of_frame frame (box face) = true ->
  (forall recognized_faces w,
      recognize_face self frame recognition_threshold recognized_faces face w
      = (Returned recognized_faces, w))
  /\ (forall before after recognized_faces w,
        recognize_faces_loop self frame recognition_threshold
          (before ++ face :: after) recognized_faces w
        = recognize_faces_loop self frame recognition_threshold
            (before ++ after) recognized_faces w)
  /\ (forall w w' out,
        recognize_faces self frame recognition_threshold w
        = (Returned out, w') ->
        (forall f, In f out -> box f <> box face)
        /\ sightings_added frame w w' out).
Proof.
  intros Ho.
  assert (Hstep : forall recognized_faces w,
             recognize_face self frame recognition_threshold recognized_faces
               face w = (Returned recognized_faces, w)).
  { intros acc w. unfold recognize_face.
    destruct (box face) as [[[x y] width] height]. now rewrite Ho. }
  split; [exact Hstep | split].
  - induction before as [|g before IH]; intros after acc w; simpl.
    + unfold bind. now rewrite Hstep.
    + unfold bind.
      destruct (recognize_face self frame recognition_threshold acc g w)
        as [[acc'|e] w1]; [apply IH | reflexivity].
  - intros w w' out H. apply recognize_faces_returned in H.
    destruct H as [Hout Hs]. split; [|exact Hs].
    intros f Hin Hb. rewrite Hout in Hin. apply recognized_In in Hin.
    destruct Hin as (g & q & _ & Hg & _ & ->). simpl in Hb.
    rewrite Hb in Hg. congruence.
Qed.

(** C8. When [recognize_faces] returns, the recorder was called exactly
    once for each face of the returned list, in order, with the face's
    region of the frame and the face's label, and for nothing else: the
    numbers of images written and of [Face] rows created both grew by the
    length of the list. *)
Theorem recognize_faces_one_sighting_per_face (self : FacialRecognition)
    (frame : ndarray) (recognition_threshold : float) (w w' : world)
    (out : list face_dict) :
  recognize_faces self frame recognition_threshold w = (Returned out, w') ->
  sightings_added frame w w' out
  /\ List.length (imwrites w')
     = (List.length (imwrites w) + List.length out)%nat
  /\ List.length (face_objects w')
     = (List.length (face_objects w) + List.length out)%nat.
Proof.
  intros H. apply recognize_faces_returned in H. destruct H as [_ Hs].
  split; [exact Hs|]. destruct Hs as [Hi Hf].
  apply (f_equal (@List.length _)) in Hi, Hf.
  rewrite length_app, !length_map in Hi, Hf. now split.
Qed.

(** C9. Every face [recognize_faces] returns carries a label, and the
    label is ['Unknown'] or one of [known_faces_labels]. *)
Theorem recognize_faces_labels (self : FacialRecognition) (frame : ndarray)
    (recognition_threshold : float) (w w' : world) (out : list face_dict) :
  recognize_faces self frame recognition_threshold w = (Returned out, w') ->
  forall f, In f out ->
    label f = Some "Unknown"
    \/ exists l, In l (known_faces_labels self) /\ label f = Some l.
Proof.
  intros H f Hin. apply recognize_faces_returned in H. destruct H as [-> _].
  apply recognized_In in Hin. destruct Hin as (face & q & _ & _ & _ & ->).
  simpl.
  destruct (matched_label_cases self q recognition_threshold) as [->|Hl].
  - now left.
  - right. now exists (matched_label self q recognition_threshold).
Qed.

(** C10. With an empty gallery the scan ends where it started, at
    [+inf] and ['Unknown'] ([+inf] exceeds every finite threshold), so
    every face [recognize_faces] returns is labelled ['Unknown'], whatever
    the threshold; and a sighting is recorded for each. *)
Theorem recognize_faces_empty_gallery (self : FacialRecognition)
    (frame : ndarray) (recognition_threshold : float) (w w' : world)
    (out : list face_dict) :
  gallery self = [] ->
  recognize_faces self frame recognition_threshold w = (Returned out, w') ->
  (forall features,
      nearest features (gallery self) PyFloat.inf "Unknown"
      = (PyFloat.inf, "Unknown"))
  /\ (PrimFloat.is_finite recognition_threshold = true ->
      PyFloat.gt PyFloat.inf recognition_threshold = true)
  /\ (forall f, In f out -> label f = Some "Unknown")
  /\ sightings_added frame w w' out
  /\ map (fun r => Some (fst r)) (face_objects w')
     = map (fun r => Some (fst r)) (face_objects w)
       ++ repeat (Some "Unknown") (List.length out).
Proof.
  intros Hg H.
  apply recognize_faces_returned in H. destruct H as [Ho Hs].
  assert (Hl : forall f, In f out -> label f = Some "Unknown").
  { intros f Hin. rewrite Ho in Hin.
    apply recognized_In in Hin. destruct Hin as (face & q & _ & _ & _ & ->).
    simpl. unfold matched_label. rewrite Hg. simpl.
    now destruct (PyFloat.gt _ _). }
  split; [intros; now rewrite Hg|].
  split; [apply PyFloatFacts.finite_lt_inf|].
  split; [exact Hl|]. split; [exact Hs|].
  destruct Hs as [_ ->]. f_equal.
  clear - Hl. induction out as [|f out IH]; simpl; [reflexivity|].
  rewrite (Hl f) by now left. f_equal. apply IH.
  intros g Hg. apply Hl. now right.
Qed.

(** C2. Every face [recognize_faces] returns is labelled from the
    embedding of its box: with [min_distance] the distance the scan of
    the gallery ends on, which is the least distance from that embedding
    to the gallery (no entry is closer, and it is the distance of an
    entry unless it is still [+inf]), the label is ['Unknown'] when
    [min_distance > recognition_threshold], and the label of the nearest
    entry when [min_distance <= recognition_threshold]. *)
Theorem recognize_faces_label_by_distance (self : FacialRecognition)
    (frame : ndarray) (recognition_threshold : float) (w w' : world)
    (out : list face_dict) :
  recognize_faces self frame recognition_threshold w = (Returned out, w') ->
  forall f, In f out ->
  exists features min_distance nearest_label,
    embedding self (Some frame) (box f) = Returned (Some features)
    /\ (forall w1, exists ls,
          nearest_scan features (gallery self) PyFloat.inf "Unknown" w1
          = (Returned (min_distance, nearest_label), say ls w1))
    /\ (forall kf kl, In (kf, kl) (gallery self) ->
          PyFloat.lt (distance_euclidean features kf) min_distance = false)
    /\ (min_distance = PyFloat.inf
        \/ exists kf kl, In (kf, kl) (gallery self)
             /\ distance_euclidean features kf = min_distance)
    /\ (PyFloat.lt min_distance PyFloat.inf = true ->
        exists i kf, first_nearest features (gallery self) i kf nearest_label
          /\ distance_euclidean features kf = min_distance)
    /\ (PyFloat.gt min_distance recognition_threshold = true ->
        label f = Some "Unknown")
    /\ (PyFloat.le min_distance recognition_threshold = true ->
        forall i kf kl, first_nearest features (gallery self) i kf kl ->
          label f = Some kl).
Proof.
  intros H f Hin. apply recognize_faces_returned in H. destruct H as [-> _].
  apply recognized_In in Hin. destruct Hin as (face & q & _ & _ & He & ->).
  pose proof (nearest_spec q (gallery self)) as Hs.
  pose proof (nearest_scan_computes q (gallery self) PyFloat.inf "Unknown")
    as Hc.
  unfold set_label, matched_label. cbn [label box].
  destruct (nearest q (gallery self) PyFloat.inf "Unknown") as [md l] eqn:En.
  cbn [fst snd] in *.
  exists q, md, l.
  split; [exact He | split; [exact Hc|]].
  split; [|split; [|split; [|split]]].
  - intros kf kl Hk. exact (scanned_lower_bound _ _ _ _ _ _ Hs Hk).
  - destruct Hs as [(-> & _)|(i & kf & (Hn & _) & ->)]; [now left | right].
    exists kf, l. split; [exact (nth_error_In _ _ Hn) | reflexivity].
  - intros Hlt.
    destruct Hs as [(-> & _)|(i & kf & Hf & ->)].
    + rewrite PyFloatFacts.lt_irrefl in Hlt. discriminate.
    + now exists i, kf.
  - now intros ->.
  - intros Hle i kf kl Hf.
    rewrite (nearest_first_nearest _ _ _ _ _ Hf) in En.
    injection En as <- <-.
    now rewrite (PyFloatFacts.le_not_gt _ _ Hle).
Qed.

(** C3. The scan replaces its candidate only on a strictly smaller
    distance, so it ends on the first of the entries at the minimum
    distance: if entry [i] is nearest and no entry before it lies at the
    same distance, the scan returns its distance and label whatever
    entries after it tie with it, and that label is the one assigned
    unless the distance exceeds the threshold. *)
Theorem nearest_scan_first_wins_ties (self : FacialRecognition)
    (features : list float) (recognition_threshold : float) (i : nat)
    (kf : list float) (kl : string) (w : world) :
  first_nearest features (gallery self) i kf kl ->
  (exists ls,
      nearest_scan features (gallery self) PyFloat.inf "Unknown" w
      = (Returned (distance_euclidean features kf, kl), say ls w))
  /\ (forall j kf' kl', nth_error (gallery self) j = Some (kf', kl') ->
        PrimFloat.eqb (distance_euclidean features kf')
                      (distance_euclidean features kf) = true ->
        (i <= j)%nat)
  /\ (PyFloat.gt (distance_euclidean features kf) recognition_threshold
      = false ->
      exists ls,
        assign_label self features recognition_threshold w
        = (Returned kl, say ls w)).
Proof.
  intros Hf. pose proof (nearest_first_nearest _ _ _ _ _ Hf) as En.
  split; [|split].
  - destruct (nearest_scan_computes features (gallery self) PyFloat.inf
                "Unknown" w) as [ls E].
    exists ls. now rewrite E, En.
  - intros j kf' kl' Hn He. destruct Hf as (_ & _ & _ & Hfirst).
    destruct (Nat.le_gt_cases i j) as [Hle|Hgt]; [exact Hle|].
    rewrite (Hfirst j kf' kl' Hgt Hn) in He. discriminate.
  - intros Hgt.
    destruct (assign_label_computes self features recognition_threshold w)
      as [ls E].
    exists ls. rewrite E. unfold matched_label. now rewrite En, Hgt.
Qed.

(** ** The gallery *)

Lemma load_known_face_run (known_faces_dir : string)
    (self : FacialRecognition) (filename : string) (w : world) :
  is_image_name filename = true ->
  exists ls,
    load_known_face known_faces_dir self filename w
    = match first_face_features self
              (cv2_imread (PyStr.join known_faces_dir filename)) with
      | Returned (Some f) =>
          (Returned (append_known self f (fst (PyStr.splitext filename))),
           say ls w)
      | Returned None =>
          (Returned self,
           say (ls ++ [ExtractFailedLine (fst (PyStr.splitext filename))]) w)
      | Raised e => (Raised e, say ls w)
      end.
Proof.
  intros Hn. unfold load_known_face. rewrite Hn.
  destruct (_preprocess_and_extract_computes self
              (cv2_imread (PyStr.join known_faces_dir filename)) w)
    as [ls E].
  exists ls. unfold bind at 1. rewrite E.
  destruct (first_face_features self _) as [[f|]|e]; try reflexivity.
  unfold bind, print, ret, say. simpl. now rewrite <- app_assoc.
Qed.

Lemma is_image_name_extension (filename : string) :
  In (snd (PyStr.splitext filename)) [".jpg"; ".jpeg"; ".png"] ->
  is_image_name filename = true.
Proof.
  intros H. pose proof (PyStrFacts.endswith_extension filename) as He.
  unfold is_image_name.
  destruct H as [H|[H|[H|[]]]]; rewrite <- H in He; rewrite He;
    now rewrite ?orb_true_r.
Qed.

(** The body of the loop on one file whose extension is [.jpg],
    [.jpeg] or [.png]: it is processed, under the label that is its name
    without the extension.  When the image cannot be read, when no face
    is detected in it, or when the preprocessing of its first face yields
    nothing, the file is reported and the object left as it was, nothing
    raised; when the first detected face yields an embedding, that
    embedding and the label are appended, one entry to each list. *)
Lemma load_known_face_cases (self : FacialRecognition)
    (filename : string) (w : world) :
  In (snd (PyStr.splitext filename)) [".jpg"; ".jpeg"; ".png"] ->
  let known_faces_dir := KNOWN_FACES_DIR settings in
  let label := fst (PyStr.splitext filename) in
  let img := cv2_imread (PyStr.join known_faces_dir filename) in
  let skipped :=
    exists ls,
      load_known_face known_faces_dir self filename w
      = (Returned self, say (ls ++ [ExtractFailedLine label]) w) in
  is_image_name filename = true
  /\ filename = (label ++ snd (PyStr.splitext filename))%string
  /\ (img = None -> skipped)
  /\ (detections self img default_confidence_threshold = [] -> skipped)
  /\ (forall face0 rest aligned_face,
        detections self img default_confidence_threshold = face0 :: rest ->
        aligned self img (box face0) = Returned aligned_face ->
        preprocessed aligned_face = Returned None -> skipped)
  /\ (forall face0 rest f,
        detections self img default_confidence_threshold = face0 :: rest ->
        embedding self img (box face0) = Returned (Some f) ->
        exists ls self',
          load_known_face known_faces_dir self filename w
          = (Returned self', say ls w)
          /\ known_faces_features self' = known_faces_features self ++ [f]
          /\ known_faces_labels self' = known_faces_labels self ++ [label]
          /\ detector self' = detector self /\ model self' = model self
          /\ shape_predictor self' = shape_predictor self).
Proof.
  intros Hext known_faces_dir label img skipped.
  pose proof (is_image_name_extension filename Hext) as Hn.
  destruct (load_known_face_run known_faces_dir self filename w Hn)
    as [ls E].
  fold img label in E.
  split; [exact Hn|]. split; [symmetry; apply PyStrFacts.splitext_app|].
  unfold first_face_features in E.
  split; [|split; [|split]].
  - intros Hi. rewrite Hi in E. simpl in E. now exists ls.
  - intros Hd. rewrite Hd in E. now exists ls.
  - intros face0 rest aligned_face Hd Ha Hp. rewrite Hd in E.
    unfold embedding in E. rewrite Ha, Hp in E. now exists ls.
  - intros face0 rest f Hd He. rewrite Hd, He in E.
    exists ls, (append_known self f label). now repeat split.
Qed.

(** [append_known] leaves the collaborators of the object alone, so the
    features of a file do not depend on the files loaded before it. *)
Lemma first_face_features_append_known (self : FacialRecognition)
    (f : list float) (l : string) (img : option ndarray) :
  first_face_features (append_known self f l) img
  = first_face_features self img.
Proof. reflexivity. Qed.

Lemma loaded_entries_append_known (known_faces_dir : string)
    (self : FacialRecognition) (f : list float) (l : string)
    (filenames : list string) :
  loaded_entries known_faces_dir (append_known self f l) filenames
  = loaded_entries known_faces_dir self filenames.
Proof.
  induction filenames as [|filename rest IH]; simpl; [reflexivity|].
  now rewrite IH, first_face_features_append_known.
Qed.

(** The whole listing: unless a collaborator raises on the first face
    of one of the files, the loop of [load_known_faces] returns, and the
    gallery has grown by the entries of the files that yield features, in
    the order of the listing. *)
Lemma load_known_faces_loop_returns (known_faces_dir : string)
    (filenames : list string) :
  forall (self : FacialRecognition) (w : world),
    (forall filename e, In filename filenames ->
        first_face_features self
          (cv2_imread (PyStr.join known_faces_dir filename)) <> Raised e) ->
    exists self' ls,
      load_known_faces_loop known_faces_dir self filenames w
      = (Returned self', say ls w)
      /\ known_faces_features self'
         = known_faces_features self
           ++ map fst (loaded_entries known_faces_dir self filenames)
      /\ known_faces_labels self'
         = known_faces_labels self
           ++ map snd (loaded_entries known_faces_dir self filenames).
Proof.
  induction filenames as [|filename rest IH]; intros self w Hn; simpl.
  - exists self, []. now rewrite say_nil, !app_nil_r.
  - unfold bind.
    destruct (is_image_name filename) eqn:Ei.
    + destruct (load_known_face_run known_faces_dir self filename w Ei)
        as [ls1 E].
      rewrite E. pose proof (Hn filename) as Hf.
      destruct (first_face_features self _) as [[f|]|e].
      * destruct (IH (append_known self f (fst (PyStr.splitext filename)))
                    (say ls1 w)) as (self' & ls & E' & Hfs & Hls).
        { intros g e Hin. rewrite first_face_features_append_known.
          apply Hn. now right. }
        exists self', (ls1 ++ ls). rewrite E', say_say, Hfs, Hls.
        rewrite loaded_entries_append_known. simpl.
        now rewrite <- !app_assoc.
      * destruct (IH self
                    (say (ls1 ++ [ExtractFailedLine
                                    (fst (PyStr.splitext filename))]) w))
          as (self' & ls & E' & Hfs & Hls).
        { intros g e Hin. apply Hn. now right. }
        exists self', ((ls1 ++ [ExtractFailedLine
                                  (fst (PyStr.splitext filename))]) ++ ls).
        now rewrite E', say_say.
      * exfalso. apply (Hf e); [now left | reflexivity].
    + unfold load_known_face. rewrite Ei. unfold ret.
      destruct (IH self w) as (self' & ls & E' & Hfs & Hls).
      { intros g e Hin. apply Hn. now right. }
      now exists self', ls.
Qed.

Lemma existsb_eqb_In (d : string) (l : list string) :
  existsb (String.eqb d) l = true <-> In d l.
Proof.
  rewrite existsb_exists. split.
  - intros (x & Hin & Hx). apply String.eqb_eq in Hx. now subst x.
  - intros Hin. exists d. split; [exact Hin | apply String.eqb_refl].
Qed.

(** [load_known_faces] is its loop over the listing when the directory
    exists, and [FileNotFoundError] when it does not. *)
Lemma load_known_faces_run (self : FacialRecognition) (w : world) :
  load_known_faces self w
  = if existsb (String.eqb (KNOWN_FACES_DIR settings)) (paths w)
    then load_known_faces_loop (KNOWN_FACES_DIR settings) self
           (os_listdir (KNOWN_FACES_DIR settings)) w
    else (Raised FileNotFoundError, w).
Proof.
  unfold load_known_faces, bind, listdir.
  now destruct (existsb _ (paths w)).
Qed.



(** Without a landmark model the frame itself is embedded, and no face
    raises as soon as [cv2.resize] takes the frame to 224 by 224. *)
Lemma recognized_face_without_predictor (self : FacialRecognition)
    (frame : ndarray) (recognition_threshold : float) (face : face_dict)
    (e : exn) :
  shape_predictor self = None ->
  cv2_resize frame (224%nat, 224%nat) <> None ->
  recognized_face self frame recognition_threshold face <> Raised e.
Proof.
  intros Hp Hr. unfold recognized_face, embedding, aligned, preprocessed.
  destruct (box face) as [[[x y] width] height]. rewrite Hp.
  destruct (out_of_frame frame _); [discriminate|].
  destruct (size frame =? 0); [discriminate|].
  destruct (cv2_resize frame (224%nat, 224%nat)); [discriminate | congruence].
Qed.

Lemma recognize_faces_returns_without_predictor (self : FacialRecognition)
    (frame : ndarray) (recognition_threshold : float) (w : world) :
  shape_predictor self = None ->
  cv2_resize frame (224%nat, 224%nat) <> None ->
  exists out w',
    recognize_faces self frame recognition_threshold w = (Returned out, w').
Proof.
  intros Hp Hr. apply recognize_faces_returns. intros face e.
  now apply recognized_face_without_predictor.
Qed.

End Facts.

(** ** The code at work on the fixture *)

Section Examples.

Import Fixture.

#[local] Existing Instance stub.

(** C1 (the code departs from the specification). A frame of 480 rows by
    640 columns is shrunk by 4 along both axes to the working image of
    120 by 160; the candidates found there at [(10, 10, 20, 20)] and
    [(50, 30, 40, 40)] come back from [_detect_faces] doubled, not
    multiplied by 4: the returned boxes are not in the coordinates of the
    frame. *)
Theorem _detect_faces_doubles_at_640x480 :
  let self := fresh three_faces in
  shape0 vga_frame = 480%nat /\ shape1 vga_frame = 640%nat
  /\ cv2_resize vga_frame (160%nat, 120%nat) = Some (small vga_frame)
  /\ shape0 (small vga_frame) = 120%nat /\ shape1 (small vga_frame) = 160%nat
  /\ map box (detector self (small vga_frame))
     = [(10, 10, 20, 20); (50, 30, 40, 40); (90, 60, 20, 20)]
  /\ fst (_detect_faces self (Some vga_frame) default_confidence_threshold w0)
     = Returned
         [set_box (stub_face (10, 10, 20, 20) 0.875%float) (20, 20, 40, 40);
          set_box (stub_face (50, 30, 40, 40) default_confidence_threshold)
                  (100, 60, 80, 80)]
  /\ map (fun c => box (rescaled_by_downsampling_factor vga_frame c))
         (detector self (small vga_frame))
     = [(40, 40, 80, 80); (200, 120, 160, 160); (360, 240, 80, 80)].
Proof. cbv zeta. repeat split; reflexivity. Qed.

(** C4 on the fixture: no image, an image of no pixel, and an image of
    five channels that the stand-in for [cv2.resize] refuses. *)
Lemma _detect_faces_fails_soft_witness :
  (exists l,
      _detect_faces (fresh three_faces) None default_confidence_threshold w0
      = (Returned [], say [l] w0) /\ l = EmptyImageLine)
  /\ (size (picture 0 0 3 0) = 0
      /\ exists l,
           _detect_faces (fresh three_faces) (Some (picture 0 0 3 0))
             default_confidence_threshold w0
           = (Returned [], say [l] w0) /\ l = EmptyImageLine)
  /\ (size (picture 10 10 5 0) <> 0
      /\ cv2_resize (picture 10 10 5 0) (160%nat, 120%nat) = None
      /\ exists l,
           _detect_faces (fresh three_faces) (Some (picture 10 10 5 0))
             default_confidence_threshold w0
           = (Returned [], say [l] w0) /\ l = ResizeErrorLine).
Proof.
  split; [|split].
  - apply (_detect_faces_fails_soft (fresh three_faces) None
             default_confidence_threshold w0 I).
  - split; [reflexivity|].
    apply (_detect_faces_fails_soft (fresh three_faces)
             (Some (picture 0 0 3 0)) default_confidence_threshold w0).
    left. reflexivity.
  - split; [discriminate | split; [reflexivity|]].
    apply (_detect_faces_fails_soft (fresh three_faces)
             (Some (picture 10 10 5 0)) default_confidence_threshold w0).
    right. reflexivity.
Defined.

(** C5 on the fixture: three candidates, one of them exactly at the
    default threshold. *)
Lemma _detect_faces_confidence_threshold_witness :
  size demo_frame <> 0
  /\ cv2_resize demo_frame (160%nat, 120%nat) = Some (small demo_frame)
  /\ exists out,
       _detect_faces (fresh three_faces) (Some demo_frame)
         default_confidence_threshold w0 = (Returned out, w0)
       /\ out = filter (fun face =>
                          PyFloat.ge (confidence face)
                                     default_confidence_threshold)
                       (map rescaled (three_faces (small demo_frame)))
       /\ (forall candidate, In candidate (three_faces (small demo_frame)) ->
             (In (rescaled candidate) out
              <-> PyFloat.ge (confidence candidate)
                    default_confidence_threshold = true))
       /\ (forall candidate, In candidate (three_faces (small demo_frame)) ->
             PrimFloat.eqb (confidence candidate)
               default_confidence_threshold = true ->
             In (rescaled candidate) out).
Proof.
  assert (Hs : size demo_frame <> 0) by discriminate.
  split; [exact Hs|]. split; [reflexivity|].
  exact (_detect_faces_confidence_threshold (fresh three_faces) demo_frame
           (small demo_frame) default_confidence_threshold w0 Hs eq_refl).
Defined.

(** C6 on the fixture: of two detected faces the first starts left of
    the frame, and only the second is returned. *)
Lemma recognize_faces_skips_out_of_frame_witness :
  let self := with_gallery off_left two_people in
  let face := rescaled (stub_face (-5, 10, 20, 20) 0.875%float) in
  out_of_frame demo_frame (box face) = true
  /\ fst (_detect_faces self
            (Some (cv2_cvtColor (cv2_cvtColor demo_frame COLOR_BGR2GRAY)
                     COLOR_GRAY2BGR))
            default_confidence_threshold w0)
     = Returned [face; rescaled (stub_face (10, 10, 20, 20) 0.875%float)]
  /\ map box
       (returned
          (recognize_faces self demo_frame default_recognition_threshold w0))
     = [(20, 20, 40, 40)]
  /\ (forall recognized_faces w,
         recognize_face self demo_frame default_recognition_threshold
           recognized_faces face w
         = (Returned recognized_faces, w))
  /\ (forall before after recognized_faces w,
         recognize_faces_loop self demo_frame default_recognition_threshold
           (before ++ face :: after) recognized_faces w
         = recognize_faces_loop self demo_frame default_recognition_threshold
             (before ++ after) recognized_faces w)
  /\ (forall w w' out,
         recognize_faces self demo_frame default_recognition_threshold w
         = (Returned out, w') ->
         (forall f, In f out -> box f <> box face)
         /\ sightings_added demo_frame w w' out).
Proof.
  cbv zeta.
  split; [reflexivity|].
  split; [vm_compute; reflexivity | split; [vm_compute; reflexivity|]].
  exact (recognize_faces_skips_out_of_frame
           (with_gallery off_left two_people) demo_frame
           default_recognition_threshold
           (rescaled (stub_face (-5, 10, 20, 20) 0.875%float)) eq_refl).
Defined.

(** The run the next examples look at: two of the three candidates pass
    the confidence threshold, both are matched to "alice". *)
Lemma demo_run :
  recognize_faces (with_gallery three_faces two_people) demo_frame
    default_recognition_threshold w0
  = (Returned
       [set_label (stub_face (20, 20, 40, 40) 0.875%float) "alice";
        set_label (stub_face (100, 60, 80, 80) default_confidence_threshold)
          "alice"],
     snd (recognize_faces (with_gallery three_faces two_people) demo_frame
            default_recognition_threshold w0)).
Proof. vm_compute. reflexivity. Qed.

(** C8 on the run above. *)
Lemma recognize_faces_one_sighting_per_face_witness :
  let self := with_gallery three_faces two_people in
  let run := recognize_faces self demo_frame default_recognition_threshold w0 in
  run = (Returned (returned run), snd run)
  /\ List.length (returned run) = 2%nat
  /\ sightings_added demo_frame w0 (snd run) (returned run)
  /\ List.length (imwrites (snd run))
     = (List.length (imwrites w0) + List.length (returned run))%nat
  /\ List.length (face_objects (snd run))
     = (List.length (face_objects w0) + List.length (returned run))%nat.
Proof.
  cbv zeta.
  assert (Hrun : recognize_faces (with_gallery three_faces two_people)
                   demo_frame default_recognition_threshold w0
                 = (Returned
                      (returned
                         (recognize_faces (with_gallery three_faces two_people)
                            demo_frame default_recognition_threshold w0)),
                    snd (recognize_faces (with_gallery three_faces two_people)
                           demo_frame default_recognition_threshold w0)))
    by (vm_compute; reflexivity).
  split; [exact Hrun | split; [vm_compute; reflexivity|]].
  exact (recognize_faces_one_sighting_per_face
           (with_gallery three_faces two_people) demo_frame
           default_recognition_threshold w0 _ _ Hrun).
Defined.

(** C9 on the run above. *)
Lemma recognize_faces_labels_witness :
  let self := with_gallery three_faces two_people in
  let run := recognize_faces self demo_frame default_recognition_threshold w0 in
  run = (Returned (returned run), snd run)
  /\ map label (returned run) = [Some "alice"; Some "alice"]
  /\ forall f, In f (returned run) ->
       label f = Some "Unknown"
       \/ exists l, In l (known_faces_labels self) /\ label f = Some l.
Proof.
  cbv zeta.
  assert (Hrun : recognize_faces (with_gallery three_faces two_people)
                   demo_frame default_recognition_threshold w0
                 = (Returned
                      (returned
                         (recognize_faces (with_gallery three_faces two_people)
                            demo_frame default_recognition_threshold w0)),
                    snd (recognize_faces (with_gallery three_faces two_people)
                           demo_frame default_recognition_threshold w0)))
    by (vm_compute; reflexivity).
  split; [exact Hrun | split; [vm_compute; reflexivity|]].
  exact (recognize_faces_labels
           (with_gallery three_faces two_people) demo_frame
           default_recognition_threshold w0 _ _ Hrun).
Defined.

(** C10: the same frame and detector, no known face. *)
Lemma recognize_faces_empty_gallery_witness :
  let self := fresh three_faces in
  let run := recognize_faces self demo_frame default_recognition_threshold w0 in
  gallery self = []
  /\ run = (Returned (returned run), snd run)
  /\ List.length (returned run) = 2%nat
  /\ (forall features,
        nearest features (gallery self) PyFloat.inf "Unknown"
        = (PyFloat.inf, "Unknown"))
  /\ (PrimFloat.is_finite default_recognition_threshold = true ->
      PyFloat.gt PyFloat.inf default_recognition_threshold = true)
  /\ (forall f, In f (returned run) -> label f = Some "Unknown")
  /\ sightings_added demo_frame w0 (snd run) (returned run)
  /\ map (fun r => Some (fst r)) (face_objects (snd run))
     = map (fun r => Some (fst r)) (face_objects w0)
       ++ repeat (Some "Unknown") (List.length (returned run)).
Proof.
  cbv zeta.
  assert (Hrun : recognize_faces (fresh three_faces) demo_frame
                   default_recognition_threshold w0
                 = (Returned
                      (returned
                         (recognize_faces (fresh three_faces) demo_frame
                            default_recognition_threshold w0)),
                    snd (recognize_faces (fresh three_faces) demo_frame
                           default_recognition_threshold w0)))
    by (vm_compute; reflexivity).
  split; [reflexivity | split; [exact Hrun | split; [vm_compute; reflexivity|]]].
  exact (recognize_faces_empty_gallery (fresh three_faces) demo_frame
           default_recognition_threshold w0 _ _ eq_refl Hrun).
Defined.

(** C2 on the run above. *)
Lemma recognize_faces_label_by_distance_witness :
  let self := with_gallery three_faces two_people in
  let run := recognize_faces self demo_frame default_recognition_threshold w0 in
  run = (Returned (returned run), snd run)
  /\ map label (returned run) = [Some "alice"; Some "alice"]
  /\ forall f, In f (returned run) ->
     exists features min_distance nearest_label,
       embedding self (Some demo_frame) (box f) = Returned (Some features)
       /\ (forall w1, exists ls,
             nearest_scan features (gallery self) PyFloat.inf "Unknown" w1
             = (Returned (min_distance, nearest_label), say ls w1))
       /\ (forall kf kl, In (kf, kl) (gallery self) ->
             PyFloat.lt (distance_euclidean features kf) min_distance = false)
       /\ (min_distance = PyFloat.inf
           \/ exists kf kl, In (kf, kl) (gallery self)
                /\ distance_euclidean features kf = min_distance)
       /\ (PyFloat.lt min_distance PyFloat.inf = true ->
           exists i kf,
             first_nearest features (gallery self) i kf nearest_label
             /\ distance_euclidean features kf = min_distance)
       /\ (PyFloat.gt min_distance default_recognition_threshold = true ->
           label f = Some "Unknown")
       /\ (PyFloat.le min_distance default_recognition_threshold = true ->
           forall i kf kl, first_nearest features (gallery self) i kf kl ->
             label f = Some kl).
Proof.
  cbv zeta.
  assert (Hrun : recognize_faces (with_gallery three_faces two_people)
                   demo_frame default_recognition_threshold w0
                 = (Returned
                      (returned
                         (recognize_faces (with_gallery three_faces two_people)
                            demo_frame default_recognition_threshold w0)),
                    snd (recognize_faces (with_gallery three_faces two_people)
                           demo_frame default_recognition_threshold w0)))
    by (vm_compute; reflexivity).
  split; [exact Hrun | split; [vm_compute; reflexivity|]].
  exact (recognize_faces_label_by_distance
           (with_gallery three_faces two_people) demo_frame
           default_recognition_threshold w0 _ _ Hrun).
Defined.

(** In [tied_people], "alice" (entry 1) is the first of the two entries at
    the least distance. *)
Lemma tied_people_first_nearest :
  first_nearest demo_features (gallery (with_gallery three_faces tied_people))
    1 [14%float; 12%float; 13%float] "alice".
Proof.
  split; [reflexivity | split; [vm_compute; reflexivity | split]].
  - intros kf kl [[= <- <-]|[[= <- <-]|[[= <- <-]|[]]]];
      vm_compute; reflexivity.
  - intros [|j] kf kl Hj Hn; [|lia].
    injection Hn as <- <-. vm_compute. reflexivity.
Qed.

(** C3 on [tied_people]: "alice" and "bob" tie at distance 3, "alice"
    comes first. *)
Lemma nearest_scan_first_wins_ties_witness :
  let self := with_gallery three_faces tied_people in
  distance_euclidean demo_features [14%float; 12%float; 13%float] = 3%float
  /\ distance_euclidean demo_features [11%float; 15%float; 13%float] = 3%float
  /\ first_nearest demo_features (gallery self) 1
       [14%float; 12%float; 13%float] "alice"
  /\ (exists ls,
         nearest_scan demo_features (gallery self) PyFloat.inf "Unknown" w0
         = (Returned
              (distance_euclidean demo_features
                 [14%float; 12%float; 13%float], "alice"),
            say ls w0))
  /\ (forall j kf' kl', nth_error (gallery self) j = Some (kf', kl') ->
        PrimFloat.eqb (distance_euclidean demo_features kf')
          (distance_euclidean demo_features [14%float; 12%float; 13%float])
        = true ->
        (1 <= j)%nat)
  /\ (PyFloat.gt
        (distance_euclidean demo_features [14%float; 12%float; 13%float])
        default_recognition_threshold = false ->
      exists ls,
        assign_label self demo_features default_recognition_threshold w0
        = (Returned "alice", say ls w0)).
Proof.
  cbv zeta.
  split; [vm_compute; reflexivity | split; [vm_compute; reflexivity|]].
  split; [exact tied_people_first_nearest|].
  exact (nearest_scan_first_wins_ties (with_gallery three_faces tied_people)
           demo_features default_recognition_threshold 1
           [14%float; 12%float; 13%float] "alice" w0
           tied_people_first_nearest).
Defined.


(** The whole gallery directory of the fixture: "alice" and "bob" are
    loaded, "junk.png" is reported and skipped, "notes.txt" is ignored. *)
Example load_known_faces_fixture :
  match load_known_faces (fresh three_faces) w0 with
  | (Returned self, w) =>
      known_faces_labels self = ["alice"; "bob"]
      /\ known_faces_features self
         = [[10%float; 11%float; 12%float]; [40%float; 41%float; 42%float]]
      /\ stdout w = [NoShapePredictorLine; EmptyImageLine;
                     ExtractFailedLine "junk"; NoShapePredictorLine]
  | (Raised _, _) => False
  end.
Proof. vm_compute. repeat split. Qed.

(** Above the threshold the nearest neighbour does not count: with a
    recognition threshold of 1, "alice" at distance [sqrt 3] is
    ['Unknown']. *)
Example recognize_faces_beyond_threshold :
  map label
    (returned
       (recognize_faces (with_gallery three_faces two_people) demo_frame
          1%float w0))
  = [Some "Unknown"; Some "Unknown"].
Proof. vm_compute. reflexivity. Qed.

(** Two sightings of "alice" within the same second share one file name. *)
Example recognize_faces_same_second :
  map fst
    (imwrites
       (snd (recognize_faces (with_gallery three_faces two_people) demo_frame
               default_recognition_threshold w0)))
  = ["media/faces_seen/alice_20240722_001700.jpg";
     "media/faces_seen/alice_20240722_001700.jpg"].
Proof. vm_compute. reflexivity. Qed.

(** At 240 rows by 320 columns the factor two is the downsampling factor. *)
Lemma rescaled_at_320x240 (img : ndarray) (face : face_dict) :
  shape0 img = 240%nat -> shape1 img = 320%nat ->
  rescaled face = rescaled_by_downsampling_factor img face.
Proof.
  intros H0 H1. unfold rescaled, rescaled_by_downsampling_factor.
  rewrite H0, H1. destruct (box face) as [[[x y] w] h].
  change (Z.of_nat 320) with (2 * 160). change (Z.of_nat 240) with (2 * 120).
  now rewrite !Z.mul_assoc, !Z.div_mul.
Qed.

(** [__init__] on the fixture: no landmark model on disk, the gallery
    loaded from the directory. *)
Example init_fixture :
  match __init__ three_faces (fun t => t) (fun _ _ _ => []) w0 with
  | (Returned self, _) =>
      shape_predictor self = None
      /\ gallery self = two_people
  | (Raised _, _) => False
  end.
Proof. vm_compute. split; reflexivity. Qed.

End Examples.

(** ** More on strings *)

Module PyStrMore.

Import PyStr.

Lemma append_assoc (a b c : string) :
  ((a ++ b) ++ c)%string = (a ++ (b ++ c))%string.
Proof. induction a as [|x a IH]; simpl; [reflexivity | now rewrite IH]. Qed.

Lemma append_inj_l (a b c : string) :
  (a ++ b)%string = (a ++ c)%string -> b = c.
Proof.
  induction a as [|x a IH]; simpl; [trivial|]. intros [= H]. now apply IH.
Qed.

Lemma append_inj_r (c : string) :
  forall a b : string, (a ++ c)%string = (b ++ c)%string -> a = b.
Proof.
  induction a as [|x a IH]; intros [|y b] H; simpl in H.
  - reflexivity.
  - apply (f_equal String.length) in H. simpl in H.
    rewrite PyStrFacts.length_app in H. lia.
  - apply (f_equal String.length) in H. simpl in H.
    rewrite PyStrFacts.length_app in H. lia.
  - injection H as -> H. f_equal. now apply IH.
Qed.

(** Whether a string starts with a given character is settled by its
    first character. *)
Lemma startswith_cons (c p : ascii) (s : string) :
  startswith (String c s) (String p "")
  = if ascii_dec p c then true else false.
Proof.
  unfold startswith. cbn [String.prefix].
  destruct (ascii_dec p c); [now destruct s | reflexivity].
Qed.

Lemma startswith_slash_app (a b c : string) :
  a <> "" ->
  startswith (a ++ b) "/" = startswith (a ++ c) "/".
Proof.
  intros Ha. destruct a as [|x a]; [congruence|].
  change (String x a ++ b)%string with (String x (a ++ b)).
  change (String x a ++ c)%string with (String x (a ++ c)).
  now rewrite !startswith_cons.
Qed.

Lemma endswith_last (a : string) (c d : ascii) :
  endswith (a ++ String c "") (String d "") = Ascii.eqb c d.
Proof.
  unfold endswith. cbv zeta. rewrite PyStrFacts.length_app.
  cbn [String.length].
  replace (String.length a + 1 - 1)%nat with (String.length a) by lia.
  pose proof (PyStrFacts.substring_app_tail a (String c "")) as H.
  cbn [String.length] in H. rewrite H.
  replace (1 <=? String.length a + 1)%nat with true
    by (symmetry; apply Nat.leb_le; lia).
  cbn [andb String.eqb]. now destruct (Ascii.eqb c d).
Qed.

(** [os.path.join] with a second part that does not start with a slash
    puts the parts side by side, with a slash between them unless the
    first is empty or ends with one. *)
Lemma join_relative (a b : string) :
  startswith b "/" = false ->
  join a b
  = (a ++ (if String.eqb a "" || endswith a "/" then "" else "/") ++ b)%string.
Proof.
  intros Hb. unfold join. rewrite Hb.
  now destruct (String.eqb a "" || endswith a "/").
Qed.

End PyStrMore.

(** * More of the class *)

Section MoreFacts.

Context {L : Libs}.

(** ** [_warp_affine] *)

(** X2. [_warp_affine] reads the landmarks 36, 45 and 30: it returns the
    image warped to 100 by 100 through the transform that sends them to
    (30, 30), (70, 30) and (50, 70) when the predictor gave at least 46
    points, and raises [IndexError] when it gave fewer; either way the
    world is untouched. *)
Theorem _warp_affine_needs_46_points (img : ndarray)
    (points : list (Z * Z)) (w : world) :
  _warp_affine img points w
  = if (46 <=? List.length points)%nat
    then (Returned
            (cv2_warpAffine img
               (cv2_getAffineTransform
                  [nth 36 points (0, 0); nth 45 points (0, 0);
                   nth 30 points (0, 0)]
                  [(30, 30); (70, 30); (50, 70)])
               (100%nat, 100%nat)),
          w)
    else (Raised IndexError, w).
Proof.
  unfold _warp_affine, bind, index.
  destruct (46 <=? List.length points)%nat eqn:E.
  - apply Nat.leb_le in E.
    destruct (nth_error points 36) as [p36|] eqn:E36;
      [|apply nth_error_None in E36; lia].
    destruct (nth_error points 45) as [p45|] eqn:E45;
      [|apply nth_error_None in E45; lia].
    destruct (nth_error points 30) as [p30|] eqn:E30;
      [|apply nth_error_None in E30; lia].
    unfold ret. cbn beta iota.
    now rewrite (nth_error_nth _ _ _ E36), (nth_error_nth _ _ _ E45),
      (nth_error_nth _ _ _ E30).
  - apply Nat.leb_gt in E.
    destruct (nth_error points 36) as [p36|] eqn:E36; [|reflexivity].
    assert (E45 : nth_error points 45 = None)
      by (apply nth_error_None; lia).
    unfold ret, raise. cbn beta iota. now rewrite E45.
Qed.

(** ** [recognize_faces] *)

Lemma recognized_labelled_from (self : FacialRecognition) (frame : ndarray)
    (recognition_threshold : float) (faces : list face_dict) :
  labelled_from faces (recognized self frame recognition_threshold faces).
Proof.
  induction faces as [|face rest IH]; simpl; [constructor|].
  unfold recognized_face.
  destruct (out_of_frame frame (box face)); [now constructor|].
  destruct (embedding self (Some frame) (box face)) as [[q|]|e];
    now constructor.
Qed.

Lemma labelled_from_length (faces out : list face_dict) :
  labelled_from faces out -> (List.length out <= List.length faces)%nat.
Proof. induction 1; simpl; lia. Qed.

(** X3. The list [recognize_faces] returns is made of detected faces in
    the detector's order (the faces [_detect_faces] returns on the gray
    copy of the frame), each with its [label] set and its [box],
    [confidence] and [keypoints] as detected; faces are dropped, never
    added, reordered or repeated. *)
Theorem recognize_faces_keeps_detected_order (self : FacialRecognition)
    (frame : ndarray) (recognition_threshold : float) (w w' : world)
    (out : list face_dict) :
  recognize_faces self frame recognition_threshold w = (Returned out, w') ->
  exists faces ls,
    _detect_faces self
      (Some (cv2_cvtColor (cv2_cvtColor frame COLOR_BGR2GRAY) COLOR_GRAY2BGR))
      default_confidence_threshold w = (Returned faces, say ls w)
    /\ labelled_from faces out
    /\ (List.length out <= List.length faces)%nat.
Proof.
  intros H. apply recognize_faces_returned in H. destruct H as [-> _].
  destruct (_detect_faces_computes self
              (Some (cv2_cvtColor (cv2_cvtColor frame COLOR_BGR2GRAY)
                       COLOR_GRAY2BGR))
              default_confidence_threshold w) as [ls E].
  eexists _, ls. split; [exact E|].
  pose proof (recognized_labelled_from self frame recognition_threshold
                (detections self
                   (Some (cv2_cvtColor (cv2_cvtColor frame COLOR_BGR2GRAY)
                            COLOR_GRAY2BGR))
                   default_confidence_threshold)) as Hl.
  split; [exact Hl | exact (labelled_from_length _ _ Hl)].
Qed.

(** Without a landmark model [_align_face] hands back the whole image,
    so the embedding does not depend on the box. *)
Lemma embedding_without_predictor (self : FacialRecognition)
    (img : option ndarray) (b b' : box_t) :
  shape_predictor self = None ->
  embedding self img b = embedding self img b'.
Proof.
  intros Hp. unfold embedding, aligned.
  destruct b as [[[x y] w] h], b' as [[[x' y'] w'] h']. now rewrite Hp.
Qed.

(** X4. Without a landmark model ([shape_predictor] is [None]) the
    aligner returns the frame itself for every box, so every face of a
    frame is embedded alike: all the faces [recognize_faces] returns for
    one frame carry the same label. *)
Theorem recognize_faces_without_predictor_one_label
    (self : FacialRecognition) (frame : ndarray)
    (recognition_threshold : float) (w w' : world) (out : list face_dict) :
  shape_predictor self = None ->
  recognize_faces self frame recognition_threshold w = (Returned out, w') ->
  forall f g, In f out -> In g out -> label f = label g.
Proof.
  intros Hp H f g Hf Hg. apply recognize_faces_returned in H.
  destruct H as [-> _].
  apply recognized_In in Hf, Hg.
  destruct Hf as (face & q & _ & _ & He & ->).
  destruct Hg as (face' & q' & _ & _ & He' & ->).
  rewrite (embedding_without_predictor self (Some frame) (box face)
             (box face') Hp) in He.
  rewrite He in He'. now injection He' as ->.
Qed.

(** X5. A face is given a label other than ['Unknown'] only on the
    strength of the gallery: the gallery holds an entry of that label
    whose distance to the embedding of the face does not exceed the
    threshold, and no entry of the gallery is closer. *)
Theorem recognize_faces_match_is_backed (self : FacialRecognition)
    (frame : ndarray) (recognition_threshold : float) (w w' : world)
    (out : list face_dict) :
  recognize_faces self frame recognition_threshold w = (Returned out, w') ->
  forall f l, In f out -> label f = Some l -> l <> "Unknown" ->
  exists features kf,
    embedding self (Some frame) (box f) = Returned (Some features)
    /\ In (kf, l) (gallery self)
    /\ PyFloat.gt (distance_euclidean features kf) recognition_threshold
       = false
    /\ PyFloat.lt (distance_euclidean features kf) PyFloat.inf = true
    /\ forall kf' kl', In (kf', kl') (gallery self) ->
         PyFloat.lt (distance_euclidean features kf')
                    (distance_euclidean features kf) = false.
Proof.
  intros H f l Hin Hl Hu. apply recognize_faces_returned in H.
  destruct H as [-> _]. apply recognized_In in Hin.
  destruct Hin as (face & q & _ & _ & He & ->).
  exists q. cbn [label set_label] in Hl. injection Hl as Hl.
  unfold matched_label in Hl.
  pose proof (nearest_spec q (gallery self)) as Hs.
  destruct (nearest q (gallery self) PyFloat.inf "Unknown") as [md nl].
  cbn [fst snd] in Hs.
  destruct (PyFloat.gt md recognition_threshold) eqn:Hgt; [congruence|].
  subst nl.
  destruct Hs as [(_ & Hn & _)|(i & kf & (Hn & Hinf & Hlow & _) & ->)];
    [congruence|].
  exists kf. cbn [box set_label].
  split; [exact He | split; [exact (nth_error_In _ _ Hn)|]].
  now repeat split.
Qed.

(** X6. Raising the recognition threshold never changes a match: if
    [t <= t'], the label assigned under [t'] is the label assigned under
    [t], unless that one was ['Unknown']. *)
Theorem assign_label_threshold_monotone (self : FacialRecognition)
    (features : list float) (t t' : float) (w : world) :
  PyFloat.le t t' = true ->
  exists l l' ls ls',
    assign_label self features t w = (Returned l, say ls w)
    /\ assign_label self features t' w = (Returned l', say ls' w)
    /\ (l = "Unknown" \/ l' = l).
Proof.
  intros Hle.
  destruct (assign_label_computes self features t w) as [ls E].
  destruct (assign_label_computes self features t' w) as [ls' E'].
  exists (matched_label self features t), (matched_label self features t'),
    ls, ls'.
  split; [exact E | split; [exact E'|]].
  unfold matched_label.
  destruct (nearest features (gallery self) PyFloat.inf "Unknown")
    as [md nl].
  destruct (PyFloat.gt md t) eqn:Hgt; [now left | right].
  destruct (PyFloat.gt md t') eqn:Hgt'; [|reflexivity].
  pose proof (PyFloatFacts.le_lt t t' md Hle Hgt') as Hlt.
  unfold PyFloat.gt, PyFloat.lt in *. congruence.
Qed.

(** X7. The region handed to the recorder for a face that passed the
    test of line 219, when its width and height are not negative: it has
    [height] rows and [width] columns, the channels of the frame, and its
    pixel (i, j) is the pixel (y + i, x + j) of the frame; nothing is
    clipped. *)
Theorem face_region_in_frame (frame : ndarray) (face : face_dict)
    (x y width height : Z) :
  box face = (x, y, width, height) ->
  out_of_frame frame (box face) = false ->
  0 <= width -> 0 <= height ->
  shape0 (face_region frame face) = Z.to_nat height
  /\ shape1 (face_region frame face) = Z.to_nat width
  /\ shape2 (face_region frame face) = shape2 frame
  /\ forall i j k,
       item (face_region frame face) i j k
       = item frame (Z.to_nat y + i) (Z.to_nat x + j) k.
Proof.
  intros Hb Ho Hw Hh. rewrite Hb in Ho. unfold out_of_frame in Ho.
  rewrite !orb_false_iff in Ho. destruct Ho as [[[Hx Hy] Hxw] Hyh].
  apply Z.ltb_ge in Hx, Hy, Hxw, Hyh.
  unfold face_region, crop, slice, slice_bound. rewrite Hb.
  assert (E1 : (y <? 0) = false) by (apply Z.ltb_ge; lia).
  assert (E2 : (y + height <? 0) = false) by (apply Z.ltb_ge; lia).
  assert (E3 : (x <? 0) = false) by (apply Z.ltb_ge; lia).
  assert (E4 : (x + width <? 0) = false) by (apply Z.ltb_ge; lia).
  rewrite E1, E2, E3, E4. cbn [shape0 shape1 shape2 item].
  rewrite !Z.min_l by lia.
  replace (y + height - y) with height by lia.
  replace (x + width - x) with width by lia.
  now repeat split.
Qed.


(** ** [save_face_image] *)

(** The path of the directory of sightings does not end with a slash. *)
Lemma faces_seen_dir_shape :
  exists pre,
    PyStr.join (MEDIA_ROOT settings) "faces_seen"
    = (pre ++ "faces_seen")%string
    /\ forall name, PyStr.startswith name "/" = false ->
         PyStr.join (MEDIA_ROOT settings) ("faces_seen/" ++ name)
         = (pre ++ "faces_seen/" ++ name)%string.
Proof.
  set (a := MEDIA_ROOT settings).
  exists (a ++ (if String.eqb a "" || PyStr.endswith a "/" then "" else "/"))%string.
  split.
  - rewrite PyStrMore.join_relative by reflexivity.
    now rewrite PyStrMore.append_assoc.
  - intros name _. rewrite PyStrMore.join_relative by reflexivity.
    now rewrite PyStrMore.append_assoc.
Qed.

(** X9. One call of [save_face_image] on an image that is not empty
    (on an empty one [cv2.imwrite] raises) writes one image and creates
    one [Face] row, and the two agree: for a label that does not start
    with a slash, the row's [image], joined to [MEDIA_ROOT], is the path
    the image was written to. *)
Theorem save_face_image_row_points_to_file (face_img : ndarray)
    (label : string) (w : world) :
  size face_img <> 0 ->
  PyStr.startswith label "/" = false ->
  exists w' filepath image,
    save_face_image face_img label w = (Returned tt, w')
    /\ imwrites w' = imwrites w ++ [(filepath, face_img)]
    /\ face_objects w' = face_objects w ++ [(label, image)]
    /\ filepath = PyStr.join (MEDIA_ROOT settings) image.
Proof.
  intros _ Hl. rewrite save_face_image_run. unfold recorded.
  eexists _, _, _. split; [reflexivity|]. cbn [imwrites face_objects].
  split; [reflexivity | split; [reflexivity|]].
  set (filename := (label ++ "_" ++ strftime_now (clock w) ++ ".jpg")%string).
  assert (Hf : PyStr.startswith filename "/" = false).
  { unfold filename. destruct label as [|c label]; [reflexivity|].
    rewrite PyStrMore.startswith_cons in Hl.
    change (String c label ++ "_" ++ strftime_now (clock w) ++ ".jpg")%string
      with (String c (label ++ "_" ++ strftime_now (clock w) ++ ".jpg")).
    now rewrite PyStrMore.startswith_cons. }
  destruct faces_seen_dir_shape as (pre & Hd & Hi).
  rewrite (Hi filename Hf), Hd.
  rewrite PyStrMore.join_relative by exact Hf.
  assert (He : String.eqb (pre ++ "faces_seen") "" = false).
  { apply String.eqb_neq. intros H. apply (f_equal String.length) in H.
    rewrite PyStrFacts.length_app in H. simpl in H. lia. }
  assert (Hs : PyStr.endswith (pre ++ "faces_seen") "/" = false).
  { change "faces_seen" with ("faces_see" ++ "n")%string.
    rewrite <- PyStrMore.append_assoc. apply PyStrMore.endswith_last. }
  rewrite He, Hs. cbn [orb].
  now rewrite !PyStrMore.append_assoc.
Qed.

(** X10. Two sightings of the same label, one right after the other,
    of images that are not empty (on an empty one [cv2.imwrite] raises):
    both images are written and both rows created, and the second image
    goes to the path of the first (overwriting it) exactly when the two
    readings of the clock give the same second. *)
Theorem save_face_image_same_second (img1 img2 : ndarray) (label : string)
    (w : world) :
  size img1 <> 0 -> size img2 <> 0 ->
  exists w' p1 p2,
    (save_face_image img1 label ;; save_face_image img2 label) w
    = (Returned tt, w')
    /\ imwrites w' = imwrites w ++ [(p1, img1); (p2, img2)]
    /\ List.length (face_objects w')
       = (List.length (face_objects w) + 2)%nat
    /\ (p1 = p2 <-> strftime_now (clock w) = strftime_now (S (clock w))).
Proof.
  intros _ _. unfold bind. rewrite !save_face_image_run.
  eexists _, _, _. split; [reflexivity|].
  unfold recorded. cbn [imwrites face_objects clock].
  split; [now rewrite <- app_assoc|].
  split; [rewrite !length_app; simpl; lia|].
  set (dir := PyStr.join (MEDIA_ROOT settings) "faces_seen").
  set (t1 := strftime_now (clock w)). set (t2 := strftime_now (S (clock w))).
  split; [|now intros ->].
  assert (Hsame : PyStr.startswith (label ++ "_" ++ t1 ++ ".jpg") "/"
                  = PyStr.startswith (label ++ "_" ++ t2 ++ ".jpg") "/").
  { destruct label as [|c label]; [reflexivity|].
    now apply PyStrMore.startswith_slash_app. }
  unfold PyStr.join. rewrite <- Hsame.
  assert (Hcancel : (label ++ "_" ++ t1 ++ ".jpg")%string
                    = (label ++ "_" ++ t2 ++ ".jpg")%string -> t1 = t2).
  { intros H. apply PyStrMore.append_inj_l in H.
    apply (PyStrMore.append_inj_l "_") in H.
    now apply PyStrMore.append_inj_r in H. }
  destruct (PyStr.startswith (label ++ "_" ++ t1 ++ ".jpg") "/");
    [exact Hcancel|].
  destruct (String.eqb dir "" || PyStr.endswith dir "/"); intros H.
  - apply PyStrMore.append_inj_l in H. now apply Hcancel.
  - apply PyStrMore.append_inj_l in H.
    apply (PyStrMore.append_inj_l "/") in H. now apply Hcancel.
Qed.

(** X11. [save_face_image] makes sure the directory of sightings exists
    and creates it once only: after a call the directory is among the
    existing paths, and a further call leaves the existing paths as they
    are. *)
Theorem save_face_image_directory_once (img1 img2 : ndarray)
    (label1 label2 : string) (w : world) :
  let faces_seen_dir := PyStr.join (MEDIA_ROOT settings) "faces_seen" in
  let w1 := snd (save_face_image img1 label1 w) in
  let w2 := snd (save_face_image img2 label2 w1) in
  In faces_seen_dir (paths w1)
  /\ (In faces_seen_dir (paths w) -> paths w1 = paths w)
  /\ (forall p, In p (paths w) -> In p (paths w1))
  /\ paths w2 = paths w1.
Proof.
  cbv zeta. rewrite !save_face_image_run. cbn [snd].
  set (dir := PyStr.join (MEDIA_ROOT settings) "faces_seen").
  assert (Hex : forall w0, In dir (paths w0) ->
            existsb (String.eqb dir) (paths w0) = true).
  { intros w0 Hin. apply existsb_exists. exists dir.
    split; [exact Hin | apply String.eqb_refl]. }
  assert (H1 : In dir (paths (recorded img1 label1 w))).
  { unfold recorded. cbn [paths]. fold dir.
    destruct (existsb (String.eqb dir) (paths w)) eqn:E; [|now left].
    apply existsb_exists in E. destruct E as (d & Hin & Hd).
    apply String.eqb_eq in Hd. now subst d. }
  split; [exact H1 | split; [|split]].
  - intros Hin. unfold recorded. cbn [paths]. fold dir.
    now rewrite (Hex w Hin).
  - intros p Hin. unfold recorded. cbn [paths]. fold dir.
    destruct (existsb (String.eqb dir) (paths w)); [exact Hin | now right].
  - unfold recorded at 1. cbn [paths]. fold dir.
    now rewrite (Hex _ H1).
Qed.

(** ** [load_known_faces] and [__init__] *)

(** X12. Files whose name does not end in [.jpg], [.jpeg] or [.png]
    (in lower case) count for nothing: loading a listing is loading its
    image names, for the object returned as for the lines printed. *)
Theorem load_known_faces_ignores_other_files (known_faces_dir : string)
    (filenames : list string) :
  forall (self : FacialRecognition) (w : world),
    load_known_faces_loop known_faces_dir self filenames w
    = load_known_faces_loop known_faces_dir self
        (filter is_image_name filenames) w.
Proof.
  induction filenames as [|filename rest IH]; intros self w; simpl;
    [reflexivity|].
  destruct (is_image_name filename) eqn:Ei; simpl.
  - unfold bind.
    destruct (load_known_face known_faces_dir self filename w)
      as [[self1|e] w1]; [apply IH | reflexivity].
  - unfold bind, load_known_face. rewrite Ei. apply IH.
Qed.

(** What the features of a file depend on in the object. *)
Lemma first_face_features_collaborators (self self' : FacialRecognition)
    (img : option ndarray) :
  detector self' = detector self -> model self' = model self ->
  shape_predictor self' = shape_predictor self ->
  first_face_features self' img = first_face_features self img.
Proof.
  intros Hd Hm Hp.
  unfold first_face_features, detections, embedding, aligned,
    _extract_features.
  now rewrite Hd, Hm, Hp.
Qed.

Lemma loaded_entries_collaborators (known_faces_dir : string)
    (self self' : FacialRecognition) (filenames : list string) :
  detector self' = detector self -> model self' = model self ->
  shape_predictor self' = shape_predictor self ->
  loaded_entries known_faces_dir self' filenames
  = loaded_entries known_faces_dir self filenames.
Proof.
  intros Hd Hm Hp. induction filenames as [|filename rest IH]; simpl;
    [reflexivity|].
  now rewrite IH, (first_face_features_collaborators self self' _ Hd Hm Hp).
Qed.

(** The loop of [load_known_faces], whichever way it ends. *)
Lemma load_known_faces_loop_run (known_faces_dir : string)
    (filenames : list string) :
  forall (self : FacialRecognition) (w : world),
    match load_known_faces_loop known_faces_dir self filenames w with
    | (Returned self', w') =>
        known_faces_features self'
        = known_faces_features self
          ++ map fst (loaded_entries known_faces_dir self filenames)
        /\ known_faces_labels self'
           = known_faces_labels self
             ++ map snd (loaded_entries known_faces_dir self filenames)
        /\ detector self' = detector self /\ model self' = model self
        /\ shape_predictor self' = shape_predictor self
        /\ (exists ls, w' = say ls w)
        /\ forall filename e, In filename filenames ->
             is_image_name filename = true ->
             first_face_features self
               (cv2_imread (PyStr.join known_faces_dir filename))
             <> Raised e
    | (Raised e, _) =>
        exists filename,
          In filename filenames /\ is_image_name filename = true
          /\ first_face_features self
               (cv2_imread (PyStr.join known_faces_dir filename))
             = Raised e
    end.
Proof.
  induction filenames as [|filename rest IH]; intros self w; simpl.
  - rewrite !app_nil_r. repeat split.
    + exists []. now rewrite say_nil.
    + intros _ _ [].
  - unfold bind. destruct (is_image_name filename) eqn:Ei.
    + destruct (load_known_face_run known_faces_dir self filename w Ei)
        as [ls1 E].
      rewrite E.
      destruct (first_face_features self
                  (cv2_imread (PyStr.join known_faces_dir filename)))
        as [[f|]|e] eqn:Ef.
      * specialize (IH (append_known self f (fst (PyStr.splitext filename)))
                      (say ls1 w)).
        rewrite loaded_entries_append_known in IH.
        destruct (load_known_faces_loop _ _ rest _) as [[self'|e] w'].
        -- destruct IH as (Hf & Hl & Hd & Hm & Hp & (ls & ->) & Hn).
           cbn [known_faces_features known_faces_labels append_known detector
                model shape_predictor] in *.
           rewrite Hf, Hl. cbn [map fst snd]. rewrite <- !app_assoc.
           repeat split; try assumption.
           ++ exists (ls1 ++ ls). now rewrite say_say.
           ++ intros g e [<-|Hin] Hg; [congruence|].
              rewrite <- (first_face_features_append_known self f
                            (fst (PyStr.splitext filename))).
              now apply Hn.
        -- destruct IH as (g & Hin & Hg & He). exists g.
           rewrite first_face_features_append_known in He.
           split; [now right | now split].
      * specialize (IH self
                      (say (ls1 ++ [ExtractFailedLine
                                      (fst (PyStr.splitext filename))]) w)).
        destruct (load_known_faces_loop _ _ rest _) as [[self'|e] w'].
        -- destruct IH as (Hf & Hl & Hd & Hm & Hp & (ls & ->) & Hn).
           repeat split; try assumption.
           ++ eexists. now rewrite say_say.
           ++ intros g e [<-|Hin] Hg; [congruence | now apply Hn].
        -- destruct IH as (g & Hin & Hg & He). exists g.
           split; [now right | now split].
      * exists filename. split; [now left | now split].
    + unfold load_known_face. rewrite Ei. unfold ret.
      specialize (IH self w).
      destruct (load_known_faces_loop _ _ rest _) as [[self'|e] w'].
      * destruct IH as (Hf & Hl & Hd & Hm & Hp & Hw & Hn).
        repeat split; try assumption.
        intros g e [<-|Hin] Hg; [congruence | now apply Hn].
      * destruct IH as (g & Hin & Hg & He). exists g.
        split; [now right | now split].
Qed.

(** The labels of the entries loaded are names of image files of the
    listing, without their extension. *)
Lemma loaded_entries_labels (known_faces_dir : string)
    (self : FacialRecognition) (filenames : list string) (l : string) :
  In l (map snd (loaded_entries known_faces_dir self filenames)) ->
  exists filename,
    In filename filenames /\ is_image_name filename = true
    /\ l = fst (PyStr.splitext filename).
Proof.
  induction filenames as [|filename rest IH]; simpl; [intros []|].
  intros Hin.
  assert (Hrest : In l (map snd (loaded_entries known_faces_dir self rest)) ->
                  exists filename0,
                    (filename = filename0 \/ In filename0 rest)
                    /\ is_image_name filename0 = true
                    /\ l = fst (PyStr.splitext filename0)).
  { intros Hr. destruct (IH Hr) as (g & Hg & Hrest).
    exists g. split; [now right | exact Hrest]. }
  destruct (is_image_name filename) eqn:Ei; [|now apply Hrest].
  destruct (first_face_features self _) as [[f|]|e];
    [|now apply Hrest|now apply Hrest].
  destruct Hin as [<-|Hin]; [|now apply Hrest].
  exists filename. split; [now left | now split].
Qed.

(** X13. When [load_known_faces] returns, the two lists of the gallery
    have grown by the same entries, one per image file whose first face
    yields features, in the order of the directory listing, labelled by
    the file names without extension; so lists of equal length stay of
    equal length.  The collaborators of the object are unchanged, and of
    the world only [stdout]. *)
Theorem load_known_faces_returned (self self' : FacialRecognition)
    (w w' : world) :
  load_known_faces self w = (Returned self', w') ->
  let added :=
    loaded_entries (KNOWN_FACES_DIR settings) self
      (os_listdir (KNOWN_FACES_DIR settings)) in
  known_faces_features self' = known_faces_features self ++ map fst added
  /\ known_faces_labels self' = known_faces_labels self ++ map snd added
  /\ (forall l, In l (map snd added) ->
        exists filename,
          In filename (os_listdir (KNOWN_FACES_DIR settings))
          /\ is_image_name filename = true
          /\ l = fst (PyStr.splitext filename))
  /\ (List.length (known_faces_features self)
      = List.length (known_faces_labels self) ->
      List.length (known_faces_features self')
      = List.length (known_faces_labels self'))
  /\ detector self' = detector self /\ model self' = model self
  /\ shape_predictor self' = shape_predictor self
  /\ paths w' = paths w /\ imwrites w' = imwrites w
  /\ face_objects w' = face_objects w /\ clock w' = clock w.
Proof.
  intros H. cbv zeta. rewrite load_known_faces_run in H.
  destruct (existsb _ (paths w)); [|discriminate].
  pose proof (load_known_faces_loop_run (KNOWN_FACES_DIR settings)
                (os_listdir (KNOWN_FACES_DIR settings)) self w) as R.
  rewrite H in R. destruct R as (Hf & Hl & Hd & Hm & Hp & (ls & ->) & _).
  split; [exact Hf | split; [exact Hl | split; [|split]]].
  - intros l. apply loaded_entries_labels.
  - intros Hlen. rewrite Hf, Hl, !length_app, !length_map. now rewrite Hlen.
  - now repeat split.
Qed.

(** X14. [load_known_faces] raises exactly when the gallery directory
    does not exist, or a library call raises on the first face of one of
    the image files of the directory: it is best-effort for pictures it
    cannot use, not for exceptions.  Without the directory the exception
    is [FileNotFoundError], and nothing has been printed. *)
Theorem load_known_faces_raises_iff (self : FacialRecognition) (w : world) :
  ((exists e w', load_known_faces self w = (Raised e, w'))
   <-> ~ In (KNOWN_FACES_DIR settings) (paths w)
       \/ exists filename e,
            In filename (os_listdir (KNOWN_FACES_DIR settings))
            /\ is_image_name filename = true
            /\ first_face_features self
                 (cv2_imread (PyStr.join (KNOWN_FACES_DIR settings) filename))
               = Raised e)
  /\ (~ In (KNOWN_FACES_DIR settings) (paths w) ->
      load_known_faces self w = (Raised FileNotFoundError, w)).
Proof.
  rewrite load_known_faces_run.
  pose proof (existsb_eqb_In (KNOWN_FACES_DIR settings) (paths w)) as Hdir.
  destruct (existsb _ (paths w)).
  - assert (Hin : In (KNOWN_FACES_DIR settings) (paths w)) by now apply Hdir.
    split; [|intros Hno; now destruct (Hno Hin)].
    pose proof (load_known_faces_loop_run (KNOWN_FACES_DIR settings)
                  (os_listdir (KNOWN_FACES_DIR settings)) self w) as R.
    destruct (load_known_faces_loop _ _ _ _) as [[self'|e] w'].
    + destruct R as (_ & _ & _ & _ & _ & _ & Hn). split.
      * intros (e & w'' & [=]).
      * intros [Hno|(filename & e & Hf & Hi & He)];
          [now destruct (Hno Hin) | now apply Hn in He].
    + destruct R as (filename & Hf & Hi & He). split.
      * intros _. right. now exists filename, e.
      * intros _. now exists e, w'.
  - assert (Hno : ~ In (KNOWN_FACES_DIR settings) (paths w)).
    { intros Hin. apply Hdir in Hin. discriminate. }
    split; [|reflexivity]. split.
    + intros _. now left.
    + intros _. now exists FileNotFoundError, w.
Qed.

Lemma combine_fst_snd {A B : Type} (l : list (A * B)) :
  combine (map fst l) (map snd l) = l.
Proof.
  induction l as [|[a b] l IH]; simpl; [reflexivity | now rewrite IH].
Qed.

(** X15. The object [__init__] returns: it holds the detector and the
    feature extractor it was given, a landmark predictor exactly when the
    model file exists, and a gallery that is what the directory yields for
    that very object, features and labels side by side. *)
Theorem init_returned (MTCNN_detect_faces : ndarray -> list face_dict)
    (feature_extractor : tensor -> tensor)
    (dlib_shape_predictor :
       string -> ndarray -> Z * Z * Z * Z -> list (Z * Z))
    (self : FacialRecognition) (w w' : world) :
  __init__ MTCNN_detect_faces feature_extractor dlib_shape_predictor w
  = (Returned self, w') ->
  let shape_predictor_path :=
    PyStr.join (MODEL_DIR settings) "shape_predictor_68_face_landmarks.dat" in
  detector self = MTCNN_detect_faces
  /\ model self = feature_extractor
  /\ shape_predictor self
     = (if existsb (String.eqb shape_predictor_path) (paths w)
        then Some (dlib_shape_predictor shape_predictor_path) else None)
  /\ gallery self
     = loaded_entries (KNOWN_FACES_DIR settings) self
         (os_listdir (KNOWN_FACES_DIR settings))
  /\ List.length (known_faces_features self)
     = List.length (known_faces_labels self).
Proof.
  unfold __init__, bind, os_path_exists. cbn beta iota. intros H. cbv zeta.
  rewrite load_known_faces_run in H.
  destruct (existsb (String.eqb (KNOWN_FACES_DIR settings)) (paths w));
    [|discriminate].
  match type of H with
  | load_known_faces_loop ?d ?s0 ?fs w = _ =>
      pose proof (load_known_faces_loop_run d fs s0 w) as R;
      rewrite H in R;
      pose proof (loaded_entries_collaborators d s0 self fs) as Hsame
  end.
  destruct R as (Hf & Hl & Hd & Hm & Hp & _).
  cbn [known_faces_features known_faces_labels detector model
       shape_predictor app] in Hf, Hl, Hd, Hm, Hp.
  rewrite (Hsame Hd Hm Hp).
  split; [exact Hd | split; [exact Hm | split; [exact Hp | split]]].
  - unfold gallery. rewrite Hf, Hl. apply combine_fst_snd.
  - now rewrite Hf, Hl, !length_map.
Qed.

(** X16. Loading and recognizing together: every label that
    [recognize_faces] gives, on an object that [__init__] returned, is
    ['Unknown'] or the name, without its extension, of an image file of
    the gallery directory. *)
Theorem recognize_faces_labels_are_file_names
    (MTCNN_detect_faces : ndarray -> list face_dict)
    (feature_extractor : tensor -> tensor)
    (dlib_shape_predictor :
       string -> ndarray -> Z * Z * Z * Z -> list (Z * Z))
    (self : FacialRecognition) (w0 w1 w w' : world) (frame : ndarray)
    (recognition_threshold : float) (out : list face_dict) :
  __init__ MTCNN_detect_faces feature_extractor dlib_shape_predictor w0
  = (Returned self, w1) ->
  recognize_faces self frame recognition_threshold w = (Returned out, w') ->
  forall f, In f out ->
    label f = Some "Unknown"
    \/ exists filename,
         In filename (os_listdir (KNOWN_FACES_DIR settings))
         /\ is_image_name filename = true
         /\ label f = Some (fst (PyStr.splitext filename)).
Proof.
  unfold __init__, bind, os_path_exists. cbn beta iota. intros Hi H f Hin.
  rewrite load_known_faces_run in Hi.
  destruct (existsb (String.eqb (KNOWN_FACES_DIR settings)) (paths w0));
    [|discriminate].
  match type of Hi with
  | load_known_faces_loop ?d ?s0 ?fs w0 = _ =>
      pose proof (load_known_faces_loop_run d fs s0 w0) as R;
      rewrite Hi in R
  end.
  destruct R as (_ & Hl & _). cbn [known_faces_labels app] in Hl.
  apply recognize_faces_returned in H. destruct H as [-> _].
  apply recognized_In in Hin. destruct Hin as (face & q & _ & _ & _ & ->).
  cbn [label set_label].
  destruct (matched_label_cases self q recognition_threshold) as [->|Hm];
    [now left | right].
  rewrite Hl in Hm. apply loaded_entries_labels in Hm.
  destruct Hm as (filename & Hf & Hn & ->). now exists filename.
Qed.

(** X17. Without a landmark model the features [_preprocess_and_extract]
    returns for a picture in which a face is detected are those of the
    whole picture, whichever faces were detected and wherever:
    [_preprocess_image] on the picture itself, then [_extract_features]. *)
Theorem _preprocess_and_extract_without_predictor
    (self : FacialRecognition) (img : option ndarray) (w : world) :
  shape_predictor self = None ->
  detections self img default_confidence_threshold <> [] ->
  exists ls,
    _preprocess_and_extract self img w
    = (match fst (_preprocess_image img w) with
       | Returned face_array => Returned (_extract_features self face_array)
       | Raised e => Raised e
       end,
       say ls w).
Proof.
  intros Hp Hd.
  destruct (_preprocess_and_extract_computes self img w) as [ls E].
  exists ls. rewrite E. f_equal.
  destruct (_preprocess_image_computes img w) as [ls' ->]. cbn [fst].
  unfold first_face_features.
  destruct (detections self img default_confidence_threshold)
    as [|face0 rest]; [congruence|].
  unfold embedding, aligned. destruct (box face0) as [[[x y] wd] h].
  rewrite Hp. now destruct (preprocessed img) as [[a|]|e].
Qed.

End MoreFacts.

(** ** More of the code at work on the fixture *)

Section MoreExamples.

Import Fixture FixtureLandmarks.

#[local] Existing Instance stub.

(** X3 on the run of [demo_run]. *)
Lemma recognize_faces_keeps_detected_order_witness :
  let self := with_gallery three_faces two_people in
  let run := recognize_faces self demo_frame default_recognition_threshold w0 in
  run = (Returned (returned run), snd run)
  /\ exists faces ls,
       _detect_faces self
         (Some (cv2_cvtColor (cv2_cvtColor demo_frame COLOR_BGR2GRAY)
                  COLOR_GRAY2BGR))
         default_confidence_threshold w0 = (Returned faces, say ls w0)
       /\ labelled_from faces (returned run)
       /\ (List.length (returned run) <= List.length faces)%nat.
Proof.
  cbv zeta.
  assert (Hrun : recognize_faces (with_gallery three_faces two_people)
                   demo_frame default_recognition_threshold w0
                 = (Returned
                      (returned
                         (recognize_faces (with_gallery three_faces two_people)
                            demo_frame default_recognition_threshold w0)),
                    snd (recognize_faces (with_gallery three_faces two_people)
                           demo_frame default_recognition_threshold w0)))
    by (vm_compute; reflexivity).
  split; [exact Hrun|].
  exact (recognize_faces_keeps_detected_order
           (with_gallery three_faces two_people) demo_frame
           default_recognition_threshold w0 _ _ Hrun).
Defined.

(** X4 on the same run: two faces, one label. *)
Lemma recognize_faces_without_predictor_one_label_witness :
  let self := with_gallery three_faces two_people in
  let run := recognize_faces self demo_frame default_recognition_threshold w0 in
  shape_predictor self = None
  /\ run = (Returned (returned run), snd run)
  /\ map box (returned run) = [(20, 20, 40, 40); (100, 60, 80, 80)]
  /\ forall f g, In f (returned run) -> In g (returned run) ->
       label f = label g.
Proof.
  cbv zeta.
  assert (Hrun : recognize_faces (with_gallery three_faces two_people)
                   demo_frame default_recognition_threshold w0
                 = (Returned
                      (returned
                         (recognize_faces (with_gallery three_faces two_people)
                            demo_frame default_recognition_threshold w0)),
                    snd (recognize_faces (with_gallery three_faces two_people)
                           demo_frame default_recognition_threshold w0)))
    by (vm_compute; reflexivity).
  split; [reflexivity | split; [exact Hrun | split; [vm_compute; reflexivity|]]].
  exact (recognize_faces_without_predictor_one_label
           (with_gallery three_faces two_people) demo_frame
           default_recognition_threshold w0 _ _ eq_refl Hrun).
Defined.

(** X5 on the same run: the first face is "alice". *)
Lemma recognize_faces_match_is_backed_witness :
  let self := with_gallery three_faces two_people in
  let run := recognize_faces self demo_frame default_recognition_threshold w0 in
  let f := set_label left_face "alice" in
  run = (Returned (returned run), snd run)
  /\ In f (returned run) /\ label f = Some "alice" /\ "alice" <> "Unknown"
  /\ exists features kf,
       embedding self (Some demo_frame) (box f) = Returned (Some features)
       /\ In (kf, "alice") (gallery self)
       /\ PyFloat.gt (distance_euclidean features kf)
            default_recognition_threshold = false
       /\ PyFloat.lt (distance_euclidean features kf) PyFloat.inf = true
       /\ forall kf' kl', In (kf', kl') (gallery self) ->
            PyFloat.lt (distance_euclidean features kf')
                       (distance_euclidean features kf) = false.
Proof.
  cbv zeta.
  assert (Hrun : recognize_faces (with_gallery three_faces two_people)
                   demo_frame default_recognition_threshold w0
                 = (Returned
                      (returned
                         (recognize_faces (with_gallery three_faces two_people)
                            demo_frame default_recognition_threshold w0)),
                    snd (recognize_faces (with_gallery three_faces two_people)
                           demo_frame default_recognition_threshold w0)))
    by (vm_compute; reflexivity).
  assert (Hin : In (set_label left_face "alice")
                  (returned
                     (recognize_faces (with_gallery three_faces two_people)
                        demo_frame default_recognition_threshold w0)))
    by (vm_compute; left; reflexivity).
  assert (Hne : "alice" <> "Unknown") by discriminate.
  split; [exact Hrun | split; [exact Hin | split; [reflexivity|]]].
  split; [exact Hne|].
  exact (recognize_faces_match_is_backed
           (with_gallery three_faces two_people) demo_frame
           default_recognition_threshold w0 _ _ Hrun
           (set_label left_face "alice") "alice" Hin eq_refl Hne).
Defined.

(** X6: from a threshold of 1 to one of 7, ['Unknown'] becomes "alice". *)
Lemma assign_label_threshold_monotone_witness :
  let self := with_gallery three_faces two_people in
  PyFloat.le 1%float 7%float = true
  /\ exists l l' ls ls',
       assign_label self demo_features 1%float w0 = (Returned l, say ls w0)
       /\ assign_label self demo_features 7%float w0
          = (Returned l', say ls' w0)
       /\ (l = "Unknown" \/ l' = l).
Proof.
  cbv zeta. split; [reflexivity|].
  exact (assign_label_threshold_monotone
           (with_gallery three_faces two_people) demo_features
           1%float 7%float w0 eq_refl).
Defined.

(** X7: the region of the box (100, 60, 80, 80) of [demo_frame]. *)
Lemma face_region_in_frame_witness :
  box right_face = (100, 60, 80, 80)
  /\ out_of_frame demo_frame (box right_face) = false
  /\ shape0 (face_region demo_frame right_face) = 80%nat
  /\ shape1 (face_region demo_frame right_face) = 80%nat
  /\ shape2 (face_region demo_frame right_face) = shape2 demo_frame
  /\ forall i j k,
       item (face_region demo_frame right_face) i j k
       = item demo_frame (60 + i) (100 + j) k.
Proof.
  split; [reflexivity | split; [reflexivity|]].
  exact (face_region_in_frame demo_frame right_face 100 60 80 80
           eq_refl eq_refl ltac:(lia) ltac:(lia)).
Defined.


(** X9: the sighting of "alice" in the fixture. *)
Lemma save_face_image_row_points_to_file_witness :
  size demo_frame <> 0
  /\ PyStr.startswith "alice" "/" = false
  /\ exists w' filepath image,
       save_face_image demo_frame "alice" w0 = (Returned tt, w')
       /\ imwrites w' = imwrites w0 ++ [(filepath, demo_frame)]
       /\ face_objects w' = face_objects w0 ++ [("alice", image)]
       /\ filepath = PyStr.join (MEDIA_ROOT settings) image.
Proof.
  assert (Hs : size demo_frame <> 0) by (vm_compute; discriminate).
  split; [exact Hs | split; [reflexivity|]].
  exact (save_face_image_row_points_to_file demo_frame "alice" w0 Hs eq_refl).
Defined.

(** X10: [demo_frame] and [vga_frame] saved as "alice" at the first two
    readings of the fixture's clock, which fall in the same second. *)
Lemma save_face_image_same_second_witness :
  size demo_frame <> 0 /\ size vga_frame <> 0
  /\ strftime_now (clock w0) = strftime_now (S (clock w0))
  /\ exists w' p1 p2,
       (save_face_image demo_frame "alice" ;;
        save_face_image vga_frame "alice") w0
       = (Returned tt, w')
       /\ imwrites w' = imwrites w0 ++ [(p1, demo_frame); (p2, vga_frame)]
       /\ List.length (face_objects w')
          = (List.length (face_objects w0) + 2)%nat
       /\ (p1 = p2 <-> strftime_now (clock w0) = strftime_now (S (clock w0))).
Proof.
  assert (H1 : size demo_frame <> 0) by (vm_compute; discriminate).
  assert (H2 : size vga_frame <> 0) by (vm_compute; discriminate).
  split; [exact H1 | split; [exact H2 | split; [reflexivity|]]].
  exact (save_face_image_same_second demo_frame vga_frame "alice" w0 H1 H2).
Defined.

(** X13 on the gallery directory of the fixture. *)
Lemma load_known_faces_returned_witness :
  let self := fresh three_faces in
  let run := load_known_faces self w0 in
  let added :=
    loaded_entries (KNOWN_FACES_DIR settings) self
      (os_listdir (KNOWN_FACES_DIR settings)) in
  run = (Returned (object_of run), snd run)
  /\ added = two_people
  /\ known_faces_features (object_of run)
     = known_faces_features self ++ map fst added
  /\ known_faces_labels (object_of run)
     = known_faces_labels self ++ map snd added
  /\ (forall l, In l (map snd added) ->
        exists filename,
          In filename (os_listdir (KNOWN_FACES_DIR settings))
          /\ is_image_name filename = true
          /\ l = fst (PyStr.splitext filename))
  /\ (List.length (known_faces_features self)
      = List.length (known_faces_labels self) ->
      List.length (known_faces_features (object_of run))
      = List.length (known_faces_labels (object_of run)))
  /\ detector (object_of run) = detector self
  /\ model (object_of run) = model self
  /\ shape_predictor (object_of run) = shape_predictor self
  /\ paths (snd run) = paths w0 /\ imwrites (snd run) = imwrites w0
  /\ face_objects (snd run) = face_objects w0 /\ clock (snd run) = clock w0.
Proof.
  cbv zeta.
  assert (Hrun : load_known_faces (fresh three_faces) w0
                 = (Returned
                      (object_of (load_known_faces (fresh three_faces) w0)),
                    snd (load_known_faces (fresh three_faces) w0)))
    by (vm_compute; reflexivity).
  split; [exact Hrun | split; [vm_compute; reflexivity|]].
  exact (load_known_faces_returned (fresh three_faces) _ w0 _ Hrun).
Defined.

(** X15 on the fixture: no model file, two people loaded. *)
Lemma init_returned_witness :
  let run := __init__ three_faces (fun t => t) (fun _ _ _ => []) w0 in
  let self := object_of run in
  run = (Returned self, snd run)
  /\ known_faces_labels self = ["alice"; "bob"]
  /\ detector self = three_faces
  /\ model self = (fun t => t)
  /\ shape_predictor self
     = (if existsb
             (String.eqb
                (PyStr.join (MODEL_DIR settings)
                   "shape_predictor_68_face_landmarks.dat"))
             (paths w0)
        then Some ((fun _ _ _ => [])
                     (PyStr.join (MODEL_DIR settings)
                        "shape_predictor_68_face_landmarks.dat"))
        else None)
  /\ gallery self
     = loaded_entries (KNOWN_FACES_DIR settings) self
         (os_listdir (KNOWN_FACES_DIR settings))
  /\ List.length (known_faces_features self)
     = List.length (known_faces_labels self).
Proof.
  cbv zeta.
  assert (Hrun : __init__ three_faces (fun t => t) (fun _ _ _ => []) w0
                 = (Returned
                      (object_of
                         (__init__ three_faces (fun t => t)
                            (fun _ _ _ => []) w0)),
                    snd (__init__ three_faces (fun t => t)
                           (fun _ _ _ => []) w0)))
    by (vm_compute; reflexivity).
  split; [exact Hrun | split; [vm_compute; reflexivity|]].
  exact (init_returned three_faces (fun t => t) (fun _ _ _ => []) _ w0 _
           Hrun).
Defined.

(** X16 on the fixture: the object of [__init__] recognizes the faces of
    [demo_frame] as "alice", the name of [alice.jpg]. *)
Lemma recognize_faces_labels_are_file_names_witness :
  let init := __init__ three_faces (fun t => t) (fun _ _ _ => []) w0 in
  let self := object_of init in
  let run :=
    recognize_faces self demo_frame default_recognition_threshold (snd init) in
  init = (Returned self, snd init)
  /\ run = (Returned (returned run), snd run)
  /\ map label (returned run) = [Some "alice"; Some "alice"]
  /\ forall f, In f (returned run) ->
       label f = Some "Unknown"
       \/ exists filename,
            In filename (os_listdir (KNOWN_FACES_DIR settings))
            /\ is_image_name filename = true
            /\ label f = Some (fst (PyStr.splitext filename)).
Proof.
  cbv zeta.
  assert (Hinit : __init__ three_faces (fun t => t) (fun _ _ _ => []) w0
                  = (Returned
                       (object_of
                          (__init__ three_faces (fun t => t)
                             (fun _ _ _ => []) w0)),
                     snd (__init__ three_faces (fun t => t)
                            (fun _ _ _ => []) w0)))
    by (vm_compute; reflexivity).
  assert (Hrun : recognize_faces
                   (object_of
                      (__init__ three_faces (fun t => t)
                         (fun _ _ _ => []) w0))
                   demo_frame default_recognition_threshold
                   (snd (__init__ three_faces (fun t => t)
                           (fun _ _ _ => []) w0))
                 = (Returned
                      (returned
                         (recognize_faces
                            (object_of
                               (__init__ three_faces (fun t => t)
                                  (fun _ _ _ => []) w0))
                            demo_frame default_recognition_threshold
                            (snd (__init__ three_faces (fun t => t)
                                    (fun _ _ _ => []) w0)))),
                    snd (recognize_faces
                           (object_of
                              (__init__ three_faces (fun t => t)
                                 (fun _ _ _ => []) w0))
                           demo_frame default_recognition_threshold
                           (snd (__init__ three_faces (fun t => t)
                                   (fun _ _ _ => []) w0)))))
    by (vm_compute; reflexivity).
  split; [exact Hinit | split; [exact Hrun | split; [vm_compute; reflexivity|]]].
  exact (recognize_faces_labels_are_file_names three_faces (fun t => t)
           (fun _ _ _ => []) _ w0 _ _ _ demo_frame
           default_recognition_threshold _ Hinit Hrun).
Defined.

(** Without the gallery directory [__init__] ends in
    [FileNotFoundError], whatever the directory would hold. *)
Example init_without_gallery_directory :
  fst (__init__ three_faces (fun t => t) (fun _ _ _ => [])
         {| stdout := []; paths := []; imwrites := [];
            face_objects := []; clock := 0 |})
  = Raised FileNotFoundError.
Proof. vm_compute. reflexivity. Qed.

(** A listing with names the filter turns down: upper case, no
    extension, another extension. *)
Example load_known_faces_ignores_upper_case :
  filter is_image_name ["ALICE.JPG"; "bob"; "carol.gif"; "dave.png"]
  = ["dave.png"].
Proof. vm_compute. reflexivity. Qed.

(** X17 on [alice.jpg]: the features are those of the whole picture. *)
Lemma _preprocess_and_extract_without_predictor_witness :
  let self := fresh three_faces in
  let img := cv2_imread "known_faces/alice.jpg" in
  shape_predictor self = None
  /\ detections self img default_confidence_threshold <> []
  /\ exists ls,
       _preprocess_and_extract self img w0
       = (match fst (_preprocess_image img w0) with
          | Returned face_array =>
              Returned (_extract_features self face_array)
          | Raised e => Raised e
          end,
          say ls w0).
Proof.
  cbv zeta.
  assert (Hd : detections (fresh three_faces)
                 (cv2_imread "known_faces/alice.jpg")
                 default_confidence_threshold <> [])
    by (vm_compute; discriminate).
  split; [reflexivity | split; [exact Hd|]].
  exact (_preprocess_and_extract_without_predictor (fresh three_faces)
           (cv2_imread "known_faces/alice.jpg") w0 eq_refl Hd).
Defined.

End MoreExamples.
